(** * upbound/up: the dependency parser [internal/dep] and the Upbound Cloud
    control-plane client

  A shallow embedding of [internal/dep/dep.go] (package [dep]) and of the
  cloud control-plane client (package [cloud]), with the properties the
  specification states about them.

  Go strings are byte sequences: they are modelled as [string], a list of
  8-bit [ascii] characters, so that [s[:1]], [s[1:]] and [strings.Split]
  work on bytes exactly as in Go. *)

From Stdlib Require Import String Ascii List Bool Arith NArith ZArith Lia.
Import ListNotations.
Open Scope string_scope.

(* ================================================================== *)
(** ** The functions of Go's [strings] package the two files call *)
(* ================================================================== *)

Module GoStrings.

(** [c < utf8.RuneSelf]: the byte is an ASCII character. *)
Definition isASCII_byte (c : ascii) : bool := (N_of_ascii c <? 128)%N.

Fixpoint isASCII (s : string) : bool :=
  match s with
  | EmptyString => true
  | String c r => isASCII_byte c && isASCII r
  end.

(** ['A' <= c && c <= 'Z'] and ['a' <= c && c <= 'z']. *)
Definition isUpper (c : ascii) : bool := ("A" <=? c)%char && (c <=? "Z")%char.
Definition isLower (c : ascii) : bool := ("a" <=? c)%char && (c <=? "z")%char.
Definition isDigit (c : ascii) : bool := ("0" <=? c)%char && (c <=? "9")%char.

(** [c += 'a' - 'A'] and [c -= 'a' - 'A'] on the letters concerned. *)
Definition toLower_byte (c : ascii) : ascii :=
  if isUpper c then ascii_of_N (N_of_ascii c + 32) else c.
Definition toUpper_byte (c : ascii) : ascii :=
  if isLower c then ascii_of_N (N_of_ascii c - 32) else c.

Fixpoint map_bytes (f : ascii -> ascii) (s : string) : string :=
  match s with
  | EmptyString => EmptyString
  | String c r => String (f c) (map_bytes f r)
  end.

(** [isSeparator] of strings.go on an ASCII rune: alphanumerics and the
    underscore are not separators, every other ASCII character is. *)
Definition isSeparator (r : ascii) : bool :=
  negb (isDigit r || isLower r || isUpper r || (r =? "_")%char).

(** The closure [strings.Title] hands to [strings.Map]: [prev] starts as a
    space; a rune that follows a separator goes through [unicode.ToTitle],
    which on ASCII is [toUpper_byte]. *)
Fixpoint title_from (prev : ascii) (s : string) : string :=
  match s with
  | EmptyString => EmptyString
  | String r s' =>
      String (if isSeparator prev then toUpper_byte r else r) (title_from r s')
  end.

(** What [strings.ToLower], [strings.ToUpper] and [strings.Title] do on a
    string that holds a byte >= 0x80 (UTF-8 decoding and the Unicode case
    tables) is not modelled: it is a parameter of the development. The one
    exception is [strings.ToUpper] on a string of a single such byte, which
    the tables have no part in. *)
Record unicode : Type := {
  unicode_ToLower : string -> string;
  unicode_ToUpper : string -> string;
  unicode_Title : string -> string
}.

Section Case.
Variable U : unicode.

(** [strings.ToLower]: the ASCII-only fast path maps ['A'..'Z'] to
    ['a'..'z'] (and returns [s] itself when there is nothing to map). *)
Definition ToLower (s : string) : string :=
  if isASCII s then map_bytes toLower_byte s else unicode_ToLower U s.

(** The UTF-8 encoding of [utf8.RuneError], U+FFFD: the bytes EF BF BD. *)
Definition RuneError_utf8 : string :=
  String "239" (String "191" (String "189" EmptyString)).

(** [strings.ToUpper], likewise on ASCII input. Other input goes through
    [strings.Map(unicode.ToUpper, s)]. On a string of one byte >= 0x80, which
    is never valid UTF-8, the [range] of [Map] reads [utf8.RuneError] of width
    one, the mapping leaves it as it is, and [WriteRune] writes its encoding:
    the byte is replaced by the three bytes of U+FFFD. *)
Definition ToUpper (s : string) : string :=
  if isASCII s then map_bytes toUpper_byte s
  else match s with
       | String _ EmptyString => RuneError_utf8
       | _ => unicode_ToUpper U s
       end.

(** [strings.Title]: on ASCII input every byte is a rune. *)
Definition Title (s : string) : string :=
  if isASCII s then title_from " " s else unicode_Title U s.
End Case.

(** An instance of the unmodelled Unicode path for concrete examples whose
    strings are ASCII, where it is never consulted. *)
Definition ascii_only : unicode :=
  {| unicode_ToLower := fun s => s;
     unicode_ToUpper := fun s => s;
     unicode_Title := fun s => s |}.

(** [strings.Split(s, sep)] for a separator of one byte, as [dep.New] calls
    it: the pieces of [s] between the occurrences of [sep], in order.
    [genSplit] cuts at [Index(s, sep)] and goes on with the rest; the
    recursion below does the same from the left, one byte at a time. *)
Fixpoint Split (s : string) (sep : ascii) : list string :=
  match s with
  | EmptyString => [EmptyString]
  | String c r =>
      if (c =? sep)%char then EmptyString :: Split r sep
      else match Split r sep with
           | piece :: pieces => String c piece :: pieces
           | [] => [String c EmptyString]
           end
  end.

(** [strings.Count(s, sep)] for a separator of one byte. *)
Fixpoint Count (s : string) (sep : ascii) : nat :=
  match s with
  | EmptyString => 0
  | String c r => (if (c =? sep)%char then 1 else 0) + Count r sep
  end.

(** [strings.Cut(s, sep)]: the text before the first [sep] and, when there is
    one, the text after it. It is what "to split on the first separator"
    means, and the specification's reading of [New] is stated with it. *)
Fixpoint Cut (s : string) (sep : ascii) : string * option string :=
  match s with
  | EmptyString => (EmptyString, None)
  | String c r =>
      if (c =? sep)%char then (EmptyString, Some r)
      else let '(before, after) := Cut r sep in (String c before, after)
  end.

(** [strings.Join(pieces, sep)] for a separator of one byte. *)
Fixpoint Join (pieces : list string) (sep : ascii) : string :=
  match pieces with
  | [] => EmptyString
  | [piece] => piece
  | piece :: rest => piece ++ String sep (Join rest sep)
  end.

End GoStrings.
(* ================================================================== *)
(** ** Package [dep]: [internal/dep/dep.go] *)
(* ================================================================== *)

Module Dep.
Import GoStrings.

(** [v1beta1.PackageType] is a string type. *)
Definition PackageType : Type := string.

(** Modelled from the spec: the two package types of crossplane's
    [apis/pkg/v1beta1], which is not part of the sources; the type hint is
    matched against the configuration one after title-casing. *)
Definition ConfigurationPackageType : PackageType := "Configuration".
Definition ProviderPackageType : PackageType := "Provider".

(** [v1beta1.Dependency]. *)
Record Dependency : Type := {
  Package : string;
  Type_ : PackageType;
  Constraints : string
}.

Section New.
Variable U : unicode.

(** The constant [defaultVer] is declared in another file of the package:
    the default constraint, which stands for "latest". *)
Variable defaultVer : string.

(** [New]. [ps[0]] is in range: [strings.Split] with a separator that is
    not empty returns at least one piece ([Split_not_nil]). *)
Definition New (pkg t : string) : Dependency :=
  let version := defaultVer in
  let ps := Split pkg "@" in
  let source := hd EmptyString ps in
  let version := if Nat.eqb (List.length ps) 2 then nth 1 ps EmptyString else version in
  let d := {| Package := source;
              Type_ := ProviderPackageType;
              Constraints := version |} in
  if String.eqb (Title U (ToLower U t)) ConfigurationPackageType
  then {| Package := Package d;
          Type_ := ConfigurationPackageType;
          Constraints := Constraints d |}
  else d.
End New.

(** [fmt.Sprintf] on string arguments, for a format whose only verb is [%s],
    as [packageTagFmt] is: each [%s] is replaced by the next argument, every
    other byte is copied. *)
Fixpoint Sprintf (format : string) (args : list string) : string :=
  match format with
  | EmptyString => EmptyString
  | String "%" (String "s" rest) =>
      match args with
      | arg :: args' => arg ++ Sprintf rest args'
      | [] => "%!s(MISSING)" ++ Sprintf rest []
      end
  | String c rest => String c (Sprintf rest args)
  end.

Definition packageTagFmt : string := "%s:%s".

Section ImgTag.
(** [(v1beta1.Dependency).Identifier] is a method of crossplane's type, which
    is not part of the sources: a parameter. *)
Variable Identifier : Dependency -> string.

(** [ImgTag]. *)
Definition ImgTag (d : Dependency) : string :=
  Sprintf packageTagFmt [Identifier d; Constraints d].
End ImgTag.

End Dep.

(* ================================================================== *)
(** ** Package [cloud]: the Upbound Cloud control-plane client *)
(* ================================================================== *)

Module Cloud.
Import GoStrings.

(** What the client takes from other packages and from the world, kept
    abstract: the types it only passes on, the library functions it calls, and
    the state of the world the wrapped clients and the clock read and change. *)
Class External : Type := {
  context : Type;                       (* context.Context *)
  UUID : Type;                          (* uuid.UUID *)
  UUID_String : UUID -> string;         (* its String method *)
  Time : Type;                          (* time.Time *)
  Duration : Type;                      (* time.Duration *)
  URL : Type;                           (* url.URL *)
  sdkError : Type;                      (* the error values of the wrapped clients *)
  IsNotFound : sdkError -> bool;        (* sdkerrs.IsNotFound on such a value *)
  World : Type;
  time_Since : Time -> World -> Duration * World;   (* time.Since reads the clock *)
  path_Join : list string -> string;    (* path.Join *)
  unicode_paths : unicode
}.

Section Client.
Context {ext : External}.

(** *** The data of the SDK and of [internal/controlplane] *)

(** [controlplanes.Status] and [controlplanes.ConfigurationStatus] are string
    types. *)
Definition Status : Type := string.
Definition ConfigurationStatus : Type := string.

(** Modelled from the spec: the status values of the SDK's [controlplanes]
    package, which is not part of the sources ("provisioning", "updating",
    "deleting", "ready", and "ready" for a configuration). *)
Definition StatusProvisioning : Status := "provisioning".
Definition StatusUpdating : Status := "updating".
Definition StatusReady : Status := "ready".
Definition StatusDeleting : Status := "deleting".
Definition ConfigurationReady : ConfigurationStatus := "ready".

(** [types.NamespacedName]. *)
Record NamespacedName : Type := {
  NamespacedName_Namespace : string;
  NamespacedName_Name : string
}.

(** [controlplanes.ControlPlaneConfiguration]: [Name] is a [*string]. *)
Record ControlPlaneConfiguration : Type := {
  ControlPlaneConfiguration_Name : option string;
  ControlPlaneConfiguration_Status : ConfigurationStatus
}.

(** [controlplanes.ControlPlane]: [Configuration] and [CreatedAt] are
    pointers. *)
Record ControlPlane : Type := {
  ControlPlane_ID : UUID;
  ControlPlane_Name : string;
  ControlPlane_Configuration : option ControlPlaneConfiguration;
  ControlPlane_CreatedAt : option Time
}.

(** [controlplanes.ControlPlaneResponse]. *)
Record ControlPlaneResponse : Type := {
  ControlPlaneResponse_ControlPlane : ControlPlane;
  ControlPlaneResponse_Status : Status
}.

(** [controlplanes.ControlPlaneListResponse]. *)
Record ControlPlaneListResponse : Type := {
  ControlPlaneListResponse_ControlPlanes : list ControlPlaneResponse
}.

(** [controlplanes.ControlPlaneCreateParameters]. *)
Record ControlPlaneCreateParameters : Type := {
  ControlPlaneCreateParameters_Name : string;
  ControlPlaneCreateParameters_Description : string;
  ControlPlaneCreateParameters_ConfigurationID : option UUID
}.

(** [configurations.ConfigurationResponse]. *)
Record ConfigurationResponse : Type := {
  ConfigurationResponse_ID : UUID
}.

(** [common.ListOption]: the only one the client builds is [WithSize]. *)
Inductive ListOption : Type :=
| WithSize (size : Z).

(** [controlplane.Response], the response of the client. *)
Record Response : Type := {
  ID : string;
  Name : string;
  Synced : string;
  Ready : string;
  Message : string;
  Cfg : string;
  Updated : string;
  Age : option Duration
}.

(** [controlplane.Options]. *)
Record Options : Type := {
  Options_Description : string;
  Options_ConfigurationName : option string
}.

(** *** Errors

    A Go [error] that is not nil is one of: a value made by [errors.New], a
    value a wrapped client returned, or the not-found condition of
    [internal/controlplane] around another error. An [error] that may be nil
    is an [option error]. *)
#[warnings="-register-all"]
Inductive error : Type :=
| errors_New (text : string)
| external (e : sdkError)
| notFound (err : option error).

(** Modelled from the spec: [controlplane.NewNotFound], of
    [internal/controlplane], is not part of the sources; it makes the typed
    not-found condition, which callers can tell from any other failure. *)
Definition NewNotFound (err : option error) : error := notFound err.

(** Modelled from the spec: the test for the typed not-found condition. *)
Definition controlplane_IsNotFound (err : option error) : bool :=
  match err with
  | Some (notFound _) => true
  | _ => false
  end.

(** [sdkerrs.IsNotFound]: false on nil and on a value that is not the SDK's. *)
Definition sdkerrs_IsNotFound (err : option error) : bool :=
  match err with
  | Some (external e) => IsNotFound e
  | _ => false
  end.

(** *** The world, the calls made, and the monad of the client

    A run either returns or panics (a nil pointer is dereferenced); either way
    it leaves a state behind: the world as the calls changed it, and the calls
    to the wrapped clients in the order they were made. *)
Inductive Call : Type :=
| CtpCreate (account : string) (params : ControlPlaneCreateParameters)
| CtpDelete (account name : string)
| CtpGet (account name : string)
| CtpList (account : string) (opts : list ListOption)
| CfgGet (account name : string).

Record state : Type := {
  world : World;
  calls : list Call
}.

Inductive outcome (A : Type) : Type :=
| Return (a : A)
| Panic.
Arguments Return {A} a.
Arguments Panic {A}.

Definition M (A : Type) : Type := state -> outcome A * state.

Definition ret {A : Type} (a : A) : M A := fun st => (Return a, st).

Definition bind {A B : Type} (m : M A) (k : A -> M B) : M B :=
  fun st =>
    match m st with
    | (Return a, st') => k a st'
    | (Panic, st') => (Panic, st')
    end.

Notation "x <- m ;; k" := (bind m (fun x => k))
  (at level 61, m at next level, right associativity).
Notation "' pat <- m ;; k" := (bind m (fun x => match x with pat => k end))
  (at level 61, pat pattern, m at next level, right associativity).

(** [*p] on a pointer that may be nil. *)
Definition deref {A : Type} (p : option A) : M A :=
  fun st => match p with
            | Some a => (Return a, st)
            | None => (Panic, st)
            end.

(** [for _, x := range xs { s = body(s, x) }]. *)
Fixpoint for_range {A S : Type} (xs : list A) (body : S -> A -> M S) (s : S) : M S :=
  match xs with
  | [] => ret s
  | x :: rest => s' <- body s x ;; for_range rest body s'
  end.

(** *** The wrapped clients *)

(** [ctpClient]. A method reads and changes the world. *)
Record ctpClient : Type := {
  ctpClient_Create :
    context -> string -> ControlPlaneCreateParameters -> World ->
    (option ControlPlaneResponse * option sdkError) * World;
  ctpClient_Delete :
    context -> string -> string -> World -> option sdkError * World;
  ctpClient_Get :
    context -> string -> string -> World ->
    (option ControlPlaneResponse * option sdkError) * World;
  ctpClient_List :
    context -> string -> list ListOption -> World ->
    (option ControlPlaneListResponse * option sdkError) * World
}.

(** [cfgGetter]. *)
Record cfgGetter : Type := {
  cfgGetter_Get :
    context -> string -> string -> World ->
    (option ConfigurationResponse * option sdkError) * World
}.

(** [Client]. *)
Record Client : Type := {
  Client_ctp : ctpClient;
  Client_cfg : cfgGetter;
  Client_account : string;
  Client_token : string;
  Client_proxy : option URL
}.

(** A call of a method of a wrapped client: the world moves on and the call is
    recorded. *)
Definition invoke {A : Type} (what : Call) (method : World -> A * World) : M A :=
  fun st =>
    let '(a, w) := method (world st) in
    (Return a, {| world := w; calls := (calls st ++ [what])%list |}).

(** [time.Since(t)]. *)
Definition since (t : Time) : M Duration :=
  fun st =>
    let '(d, w) := time_Since t (world st) in
    (Return d, {| world := w; calls := calls st |}).

(** *** [Option], [WithToken], [WithProxyEndpoint], [New] *)

Definition Option : Type := Client -> Client.

Definition WithToken (t : string) : Option :=
  fun c => {| Client_ctp := Client_ctp c; Client_cfg := Client_cfg c;
              Client_account := Client_account c;
              Client_token := t; Client_proxy := Client_proxy c |}.

Definition WithProxyEndpoint (p : option URL) : Option :=
  fun c => {| Client_ctp := Client_ctp c; Client_cfg := Client_cfg c;
              Client_account := Client_account c;
              Client_token := Client_token c; Client_proxy := p |}.

Definition New (ctp : ctpClient) (cfg : cfgGetter) (account : string)
    (opts : list Option) : Client :=
  let c := {| Client_ctp := ctp; Client_cfg := cfg; Client_account := account;
              Client_token := EmptyString; Client_proxy := None |} in
  fold_left (fun c o => o c) opts c.

(** *** [convert] and its helpers *)

Definition maxItems : Z := 100.

Definition toBool (b : bool) : string :=
  if b then "True" else "False".

Definition toMessage (status : Status) : string :=
  if String.eqb status StatusProvisioning then "Controlplane is being created"
  else if String.eqb status StatusUpdating then "Controlplane is being updated"
  else if String.eqb status StatusDeleting then "Controlplane is being deleted"
  else "".

(** [formatStatus]: [status[:1]] and [status[1:]] are byte slices, and are in
    range in the default case, where [status] is not empty. *)
Definition formatStatus (status : ConfigurationStatus) : string :=
  if String.eqb status "" then ""
  else if String.eqb status ConfigurationReady then "True"
  else ToUpper unicode_paths (substring 0 1 status)
       ++ substring 1 (String.length status - 1) status.

(** [convert]. Its argument is a pointer; [*ctp.ControlPlane.Configuration.Name]
    is dereferenced without a test, and the clock is read when [CreatedAt] is
    set. *)
Definition convert (ctp : option ControlPlaneResponse) : M Response :=
  ctp <- deref ctp ;;
  let cp := ControlPlaneResponse_ControlPlane ctp in
  '(cfgName, cfgStatus) <-
    match ControlPlane_Configuration cp with
    | Some configuration =>
        name <- deref (ControlPlaneConfiguration_Name configuration) ;;
        ret (name, ControlPlaneConfiguration_Status configuration)
    | None => ret (EmptyString, EmptyString)
    end ;;
  age <-
    match ControlPlane_CreatedAt cp with
    | Some createdAt => d <- since createdAt ;; ret (Some d)
    | None => ret None
    end ;;
  ret {| ID := UUID_String (ControlPlane_ID cp);
         Name := ControlPlane_Name cp;
         Synced := toBool true;
         Ready := toBool (String.eqb (ControlPlaneResponse_Status ctp) StatusReady);
         Message := toMessage (ControlPlaneResponse_Status ctp);
         Cfg := cfgName;
         Updated := formatStatus cfgStatus;
         Age := age |}.

(** *** The methods of [Client] *)

(** The error of a request that carries a namespace. *)
Definition unsupported_namespace : error :=
  errors_New "namespace is not supported for Upbound Cloud control planes".

(** [Client.Get]: the two tests on [err] are made in the order of the source,
    the not-found test first. *)
Definition Get (c : Client) (ctx : context) (ctp : NamespacedName)
    : M (option Response * option error) :=
  if negb (String.eqb (NamespacedName_Namespace ctp) "") then
    ret (None, Some unsupported_namespace)
  else
    '(resp, err) <- invoke (CtpGet (Client_account c) (NamespacedName_Name ctp))
                      (ctpClient_Get (Client_ctp c) ctx (Client_account c) (NamespacedName_Name ctp)) ;;
    let err := option_map external err in
    if sdkerrs_IsNotFound err then ret (None, Some (NewNotFound err))
    else
      match err with
      | Some _ => ret (None, err)
      | None => r <- convert resp ;; ret (Some r, None)
      end.

(** [Client.List] ([List_] here, [List] being the library of lists). The
    result starts as the empty slice, which is not nil, and grows by one
    conversion per element. *)
Definition List_ (c : Client) (ctx : context) (namespace : string)
    : M (option (list Response) * option error) :=
  if negb (String.eqb namespace "") then
    ret (None, Some unsupported_namespace)
  else
    '(l, err) <- invoke (CtpList (Client_account c) [WithSize maxItems])
                   (ctpClient_List (Client_ctp c) ctx (Client_account c) [WithSize maxItems]) ;;
    let err := option_map external err in
    match err with
    | Some _ => ret (None, err)
    | None =>
        l <- deref l ;;
        resps <- for_range (ControlPlaneListResponse_ControlPlanes l)
                   (fun resps r =>
                      let cp := r in
                      x <- convert (Some cp) ;; ret (resps ++ [x])%list)
                   [] ;;
        ret (Some resps, None)
    end.

(** [Client.Create]. [submit] is the method from the create call on; the
    two returns inside the lookup leave the method early. [&cfg.ID] panics on
    a nil [cfg]. *)
Definition Create (c : Client) (ctx : context) (ctp : NamespacedName) (opts : Options)
    : M (option Response * option error) :=
  if negb (String.eqb (NamespacedName_Namespace ctp) "") then
    ret (None, Some unsupported_namespace)
  else
    let params :=
      {| ControlPlaneCreateParameters_Name := NamespacedName_Name ctp;
         ControlPlaneCreateParameters_Description := Options_Description opts;
         ControlPlaneCreateParameters_ConfigurationID := None |} in
    let submit (params : ControlPlaneCreateParameters) :=
      '(resp, err) <- invoke (CtpCreate (Client_account c) params)
                        (ctpClient_Create (Client_ctp c) ctx (Client_account c) params) ;;
      let err := option_map external err in
      match err with
      | Some _ => ret (None, err)
      | None => r <- convert resp ;; ret (Some r, None)
      end in
    match Options_ConfigurationName opts with
    | Some configurationName =>
        '(cfg, err) <- invoke (CfgGet (Client_account c) configurationName)
                         (cfgGetter_Get (Client_cfg c) ctx (Client_account c) configurationName) ;;
        let err := option_map external err in
        match err with
        | Some _ => ret (None, err)
        | None =>
            cfg <- deref cfg ;;
            submit
              {| ControlPlaneCreateParameters_Name := ControlPlaneCreateParameters_Name params;
                 ControlPlaneCreateParameters_Description :=
                   ControlPlaneCreateParameters_Description params;
                 ControlPlaneCreateParameters_ConfigurationID :=
                   Some (ConfigurationResponse_ID cfg) |}
        end
    | None => submit params
    end.

(** [Client.Delete]. *)
Definition Delete (c : Client) (ctx : context) (ctp : NamespacedName) : M (option error) :=
  if negb (String.eqb (NamespacedName_Namespace ctp) "") then
    ret (Some unsupported_namespace)
  else
    err <- invoke (CtpDelete (Client_account c) (NamespacedName_Name ctp))
             (ctpClient_Delete (Client_ctp c) ctx (Client_account c) (NamespacedName_Name ctp)) ;;
    let err := option_map external err in
    if sdkerrs_IsNotFound err then ret (Some (NewNotFound err))
    else ret err.

(** *** [GetKubeConfig] *)

Section KubeConfig.

(** [api.Config]. *)
Variable Config : Type.

(** Modelled from the spec: [kube.BuildControlPlaneKubeconfig], of
    [internal/kube], is not part of the sources. The specification has it as
    a pure function that makes a credential structure from the proxy endpoint,
    a path, a token and a flag, and that always returns one. *)
Variable BuildControlPlaneKubeconfig : option URL -> string -> string -> bool -> Config.

(** [Client.GetKubeConfig]: no test on the namespace, no call of a wrapped
    client. *)
Definition GetKubeConfig (c : Client) (ctx : context) (ctp : NamespacedName)
    : M (option Config * option error) :=
  ret (Some (BuildControlPlaneKubeconfig
               (Client_proxy c)
               (path_Join [Client_account c; NamespacedName_Name ctp])
               (Client_token c)
               false),
       None).

End KubeConfig.

End Client.

Arguments Return {A} a.
Arguments Panic {A}.

End Cloud.
(* ================================================================== *)
(** ** Facts about the string functions *)
(* ================================================================== *)

Module GoStringsFacts.
Import GoStrings.

Lemma Split_length (s : string) (sep : ascii) :
  List.length (Split s sep) = Count s sep + 1.
Proof.
  induction s as [|c r IH]; simpl; [reflexivity|].
  destruct (c =? sep)%char; simpl; [now rewrite IH|].
  destruct (Split r sep) as [|piece pieces]; simpl in *; lia.
Qed.

Lemma Split_not_nil (s : string) (sep : ascii) : Split s sep <> [].
Proof.
  intros H. pose proof (Split_length s sep) as L. rewrite H in L. simpl in L. lia.
Qed.

(** The first piece is the text before the first separator. *)
Lemma Split_hd (s : string) (sep : ascii) :
  hd EmptyString (Split s sep) = fst (Cut s sep).
Proof.
  induction s as [|c r IH]; simpl; [reflexivity|].
  destruct (c =? sep)%char; simpl; [reflexivity|].
  destruct (Cut r sep) as [before after]; simpl in *.
  destruct (Split r sep) as [|piece pieces] eqn:E.
  - now destruct (Split_not_nil r sep).
  - simpl in *. now rewrite IH.
Qed.

Lemma Cut_found (s : string) (sep : ascii) :
  snd (Cut s sep) = None <-> Count s sep = 0.
Proof.
  induction s as [|c r IH]; simpl; [tauto|].
  destruct (c =? sep)%char; simpl.
  - split; [discriminate | lia].
  - destruct (Cut r sep); simpl in *. exact IH.
Qed.

(** Without a separator the text is the only piece. *)
Lemma Split_Count_0 (s : string) (sep : ascii) :
  Count s sep = 0 -> Split s sep = [s] /\ Cut s sep = (s, None).
Proof.
  induction s as [|c r IH]; simpl; [now split|].
  destruct (c =? sep)%char; simpl; [lia|].
  intros H. destruct (IH H) as [-> ->]. now split.
Qed.

(** With exactly one separator there are two pieces: the text before it and
    the text after it. *)
Lemma Split_Count_1 (s : string) (sep : ascii) :
  Count s sep = 1 ->
  exists before after,
    Split s sep = [before; after] /\ Cut s sep = (before, Some after).
Proof.
  induction s as [|c r IH]; simpl; [discriminate|].
  destruct (c =? sep)%char; simpl.
  - intros H. assert (H0 : Count r sep = 0) by lia.
    destruct (Split_Count_0 r sep H0) as [-> _]. now exists EmptyString, r.
  - intros H. destruct (IH H) as (before & after & -> & ->).
    now exists (String c before), after.
Qed.

(** The pieces, joined by the separator, are the text that was split. *)
Lemma Join_Split (s : string) (sep : ascii) : Join (Split s sep) sep = s.
Proof.
  induction s as [|c r IH]; simpl; [reflexivity|].
  destruct (c =? sep)%char eqn:E.
  - apply Ascii.eqb_eq in E. subst c.
    destruct (Split r sep) as [|piece pieces] eqn:S.
    + now destruct (Split_not_nil r sep).
    + simpl in *. now rewrite IH.
  - destruct (Split r sep) as [|piece pieces] eqn:S.
    + now destruct (Split_not_nil r sep).
    + destruct pieces; simpl in *; now rewrite IH.
Qed.

(** No piece holds the separator. *)
Lemma Split_pieces (s : string) (sep : ascii) :
  Forall (fun piece => Count piece sep = 0) (Split s sep).
Proof.
  induction s as [|c r IH]; simpl; [now constructor|].
  destruct (c =? sep)%char eqn:E; [now constructor|].
  destruct (Split r sep) as [|piece pieces]; [constructor; simpl; [now rewrite E | constructor]|].
  inversion IH; subst. constructor; [simpl; rewrite E; lia | assumption].
Qed.

(** *** Case folding *)

Fixpoint all_bytes (p : ascii -> bool) (s : string) : bool :=
  match s with
  | EmptyString => true
  | String c r => p c && all_bytes p r
  end.

Lemma toLower_byte_not_upper (c : ascii) : isUpper (toLower_byte c) = false.
Proof. destruct c as [[] [] [] [] [] [] [] []]; reflexivity. Qed.

Lemma toLower_byte_ascii (c : ascii) :
  isASCII_byte c = true -> isASCII_byte (toLower_byte c) = true.
Proof. destruct c as [[] [] [] [] [] [] [] []]; intros H; try discriminate H; reflexivity. Qed.

Lemma map_toLower_ascii (s : string) :
  isASCII s = true -> isASCII (map_bytes toLower_byte s) = true.
Proof.
  induction s as [|c r IH]; simpl; [reflexivity|].
  intros H. apply andb_true_iff in H as [Hc Hr].
  now rewrite (toLower_byte_ascii c Hc), (IH Hr).
Qed.

Lemma toUpper_byte_C (c : ascii) :
  toUpper_byte c = "C"%char -> isUpper c = false -> c = "c"%char.
Proof.
  destruct c as [[] [] [] [] [] [] [] []]; vm_compute; intros H1 H2;
    first [reflexivity | discriminate H1 | discriminate H2].
Qed.

(** Inside a word [strings.Title] changes nothing: after a byte that is not a
    separator, a text free of separators can only come from itself. *)
Lemma title_from_word (w : string) :
  all_bytes (fun c => negb (isSeparator c)) w = true ->
  forall prev s, isSeparator prev = false -> title_from prev s = w -> s = w.
Proof.
  induction w as [|c w IH]; intros Hw prev s Hprev H.
  - destruct s; [reflexivity | discriminate H].
  - destruct s as [|r s]; [discriminate H|].
    simpl in H. rewrite Hprev in H. injection H as -> H.
    simpl in Hw. apply andb_true_iff in Hw as [Hc Hw].
    f_equal. apply (IH Hw c s); [|exact H].
    now apply negb_true_iff in Hc.
Qed.

(** On an ASCII type hint the test of [New] is equality with
    "configuration" once the hint is lower-cased. *)
Lemma Title_ToLower_configuration (U : unicode) (t : string) :
  isASCII t = true ->
  Title U (ToLower U t) = "Configuration" <->
  map_bytes toLower_byte t = "configuration".
Proof.
  intros Ht. unfold ToLower, Title. rewrite Ht, (map_toLower_ascii t Ht).
  split.
  - destruct t as [|c t]; simpl; [discriminate|].
    intros H. injection H as Hc Hrest.
    apply toUpper_byte_C in Hc; [|apply toLower_byte_not_upper].
    rewrite Hc in *. f_equal.
    now apply (title_from_word "onfiguration" eq_refl "c"%char).
  - intros ->. reflexivity.
Qed.

End GoStringsFacts.

(* ================================================================== *)
(** ** Properties of [dep.New] *)
(* ================================================================== *)

Module DepSpec.
Import GoStrings GoStringsFacts Dep.

Example New_acme_db_version :
  New ascii_only ">=v0.0.0" "acme/db@v1.2.3" "provider"
  = {| Package := "acme/db"; Type_ := ProviderPackageType; Constraints := "v1.2.3" |}.
Proof. reflexivity. Qed.

Example New_acme_db_bare :
  New ascii_only ">=v0.0.0" "acme/db" "CONFIGURATION"
  = {| Package := "acme/db"; Type_ := ConfigurationPackageType; Constraints := ">=v0.0.0" |}.
Proof. reflexivity. Qed.

Example New_acme_db_two_versions :
  New ascii_only ">=v0.0.0" "acme/db@v1@v2" "widget"
  = {| Package := "acme/db"; Type_ := ProviderPackageType; Constraints := ">=v0.0.0" |}.
Proof. reflexivity. Qed.

(** The package is always the first piece of the split. *)
Lemma New_Package (U : unicode) (defaultVer pkg t : string) :
  Package (New U defaultVer pkg t) = fst (Cut pkg "@").
Proof.
  unfold New. rewrite <- Split_hd.
  now destruct (String.eqb _ _).
Qed.

(** The constraints depend on the number of pieces only through the test
    [len(ps) == 2]. *)
Lemma New_Constraints (U : unicode) (defaultVer pkg t : string) :
  Constraints (New U defaultVer pkg t) =
  if Nat.eqb (Count pkg "@") 1 then nth 1 (Split pkg "@") EmptyString else defaultVer.
Proof.
  unfold New. rewrite Split_length.
  replace (Nat.eqb (Count pkg "@" + 1) 2) with (Nat.eqb (Count pkg "@") 1)
    by (destruct (Nat.eqb_spec (Count pkg "@") 1), (Nat.eqb_spec (Count pkg "@" + 1) 2);
        reflexivity || lia).
  now destruct (String.eqb _ _).
Qed.

Lemma New_Type (U : unicode) (defaultVer pkg t : string) :
  Type_ (New U defaultVer pkg t) =
  if String.eqb (Title U (ToLower U t)) "Configuration"
  then ConfigurationPackageType else ProviderPackageType.
Proof.
  unfold New, ConfigurationPackageType. now destruct (String.eqb _ _).
Qed.

(** C2, as the claim states it, fails on an input with two "@". The text
    after the first "@" of "acme/db@v1@v2" is "v1@v2", and of "acme/db@v1@v3"
    it is "v1@v3", but the split has three pieces, the test [len(ps) == 2]
    fails and the constraints stay at the default: no value of [defaultVer]
    makes both constraints the text after the first "@", and with "latest"
    the first input has the constraints "latest". *)
Lemma New_first_at_counterexample :
  snd (Cut "acme/db@v1@v2" "@") = Some "v1@v2" /\
  snd (Cut "acme/db@v1@v3" "@") = Some "v1@v3" /\
  Constraints (New ascii_only "latest" "acme/db@v1@v2" "provider") = "latest" /\
  ~ (exists defaultVer : string,
       Constraints (New ascii_only defaultVer "acme/db@v1@v2" "provider") = "v1@v2" /\
       Constraints (New ascii_only defaultVer "acme/db@v1@v3" "provider") = "v1@v3").
Proof.
  split; [reflexivity|]. split; [reflexivity|]. split; [reflexivity|].
  intros (defaultVer & H2 & H3).
  rewrite New_Constraints in H2, H3. simpl in H2, H3.
  rewrite H2 in H3. discriminate H3.
Qed.

(** C2, amended: for every input and type hint, [New] returns the text
    before the first "@" as the package; the constraints are the text after
    the "@" when the input holds exactly one "@", and the default constraint
    when it holds none or more than one; the type is the configuration type
    iff the title-cased lower-cased hint is "Configuration", which for an
    ASCII hint means that the hint is "configuration" up to case, and it is
    the provider type otherwise. *)
Theorem New_spec (U : unicode) (defaultVer pkg t : string) :
  let d := New U defaultVer pkg t in
  Package d = fst (Cut pkg "@") /\
  Constraints d =
    match Count pkg "@", snd (Cut pkg "@") with
    | 1, Some after => after
    | _, _ => defaultVer
    end /\
  (snd (Cut pkg "@") = None -> Constraints d = defaultVer) /\
  (Type_ d = ConfigurationPackageType <-> Title U (ToLower U t) = "Configuration") /\
  (isASCII t = true ->
   (Type_ d = ConfigurationPackageType <-> map_bytes toLower_byte t = "configuration")) /\
  (Type_ d <> ConfigurationPackageType -> Type_ d = ProviderPackageType).
Proof.
  cbv zeta.
  assert (HC : Constraints (New U defaultVer pkg t) =
               match Count pkg "@", snd (Cut pkg "@") with
               | 1, Some after => after
               | _, _ => defaultVer
               end).
  { rewrite New_Constraints.
    destruct (Nat.eqb_spec (Count pkg "@") 1) as [E|E].
    - rewrite E. destruct (Split_Count_1 pkg "@" E) as (before & after & -> & ->).
      reflexivity.
    - destruct (Count pkg "@") as [|[|n]]; [reflexivity | lia | reflexivity]. }
  assert (HT : Type_ (New U defaultVer pkg t) = ConfigurationPackageType <->
               Title U (ToLower U t) = "Configuration").
  { rewrite New_Type. destruct (String.eqb_spec (Title U (ToLower U t)) "Configuration").
    - tauto.
    - split; [discriminate | tauto]. }
  split; [apply New_Package|].
  split; [exact HC|].
  split; [intros HN; rewrite HC, HN; now destruct (Count pkg "@") as [|[|n]]|].
  split; [exact HT|].
  split.
  - intros Ht. rewrite HT. now apply Title_ToLower_configuration.
  - rewrite New_Type. now destruct (String.eqb _ _).
Qed.

(** C2, a use of [New_spec]: one "@", and a hint in mixed case. *)
Lemma New_spec_witness :
  Package (New ascii_only "latest" "acme/db@v1.2.3" "ConFiguRation") = "acme/db" /\
  Constraints (New ascii_only "latest" "acme/db@v1.2.3" "ConFiguRation") = "v1.2.3" /\
  Type_ (New ascii_only "latest" "acme/db@v1.2.3" "ConFiguRation") = ConfigurationPackageType.
Proof.
  pose proof (New_spec ascii_only "latest" "acme/db@v1.2.3" "ConFiguRation") as H.
  cbv zeta in H. destruct H as (HP & HC & _ & _ & HA & _).
  split; [exact HP | split; [exact HC | apply (HA eq_refl); reflexivity]].
Defined.

(** C10: an input with no "@" or with two or more keeps the default
    constraint, and its package is the text before the first "@" (the whole
    input when there is none); the version that was split off becomes the
    constraint only when the input holds exactly one "@", and then it does. *)
Theorem New_at_count (U : unicode) (defaultVer pkg t : string) :
  (Count pkg "@" <> 1 ->
   Constraints (New U defaultVer pkg t) = defaultVer /\
   Package (New U defaultVer pkg t) = fst (Cut pkg "@") /\
   (Count pkg "@" = 0 -> Package (New U defaultVer pkg t) = pkg)) /\
  (Count pkg "@" = 1 ->
   exists after, snd (Cut pkg "@") = Some after /\
                 Constraints (New U defaultVer pkg t) = after /\
                 pkg = Package (New U defaultVer pkg t) ++ String "@" after).
Proof.
  split.
  - intros H. rewrite New_Constraints, New_Package.
    destruct (Nat.eqb_spec (Count pkg "@") 1) as [E|_]; [contradiction|].
    repeat split. intros H0. now destruct (Split_Count_0 pkg "@" H0) as [_ ->].
  - intros H. rewrite New_Constraints, New_Package, H.
    pose proof (Join_Split pkg "@") as J.
    destruct (Split_Count_1 pkg "@" H) as (before & after & S & C).
    rewrite S in J. rewrite S, C. exists after. simpl in *. now rewrite J.
Qed.

(** C10, uses of [New_at_count]: no "@", two "@", and exactly one. *)
Lemma New_at_count_witness :
  (Constraints (New ascii_only "latest" "acme/db" "provider") = "latest" /\
   Package (New ascii_only "latest" "acme/db" "provider") = "acme/db") /\
  (Constraints (New ascii_only "latest" "a@b@c" "provider") = "latest" /\
   Package (New ascii_only "latest" "a@b@c" "provider") = "a") /\
  Constraints (New ascii_only "latest" "a@b" "provider") = "b".
Proof.
  split; [|split].
  - destruct (proj1 (New_at_count ascii_only "latest" "acme/db" "provider"))
      as (HC & HP & _); [discriminate|]. now split.
  - destruct (proj1 (New_at_count ascii_only "latest" "a@b@c" "provider"))
      as (HC & HP & _); [discriminate|]. now split.
  - destruct (proj2 (New_at_count ascii_only "latest" "a@b" "provider") eq_refl)
      as (after & HS & HC & _).
    simpl in HS. injection HS as <-. exact HC.
Defined.

End DepSpec.

(* ================================================================== *)
(** ** Properties of the control-plane client *)
(* ================================================================== *)

Module CloudSpec.
Import GoStrings GoStringsFacts Cloud.

Section Conversion.
Context {ext : External}.

(** The age [convert] computes, and the state the clock is left in. *)
Definition age_of (cp : ControlPlane) (st : state) : option Duration * state :=
  match ControlPlane_CreatedAt cp with
  | Some createdAt =>
      let '(d, w) := time_Since createdAt (world st) in
      (Some d, {| world := w; calls := calls st |})
  | None => (None, st)
  end.

(** The response [convert] builds once the configuration name and status and
    the age are known. *)
Definition response_of (ctp : ControlPlaneResponse) (cfgName : string)
    (cfgStatus : ConfigurationStatus) (age : option Duration) : Response :=
  {| ID := UUID_String (ControlPlane_ID (ControlPlaneResponse_ControlPlane ctp));
     Name := ControlPlane_Name (ControlPlaneResponse_ControlPlane ctp);
     Synced := toBool true;
     Ready := toBool (String.eqb (ControlPlaneResponse_Status ctp) StatusReady);
     Message := toMessage (ControlPlaneResponse_Status ctp);
     Cfg := cfgName;
     Updated := formatStatus cfgStatus;
     Age := age |}.

(** The precondition of [convert]: a configuration reference has a name. *)
Definition named_configuration (ctp : ControlPlaneResponse) : Prop :=
  forall configuration,
    ControlPlane_Configuration (ControlPlaneResponse_ControlPlane ctp) = Some configuration ->
    ControlPlaneConfiguration_Name configuration <> None.

(** [convert] by cases on the configuration reference. *)
Lemma convert_cases (ctp : ControlPlaneResponse) (st : state) :
  convert (Some ctp) st =
  match ControlPlane_Configuration (ControlPlaneResponse_ControlPlane ctp) with
  | Some configuration =>
      match ControlPlaneConfiguration_Name configuration with
      | Some name =>
          let '(age, st') := age_of (ControlPlaneResponse_ControlPlane ctp) st in
          (Return (response_of ctp name (ControlPlaneConfiguration_Status configuration) age),
           st')
      | None => (Panic, st)
      end
  | None =>
      let '(age, st') := age_of (ControlPlaneResponse_ControlPlane ctp) st in
      (Return (response_of ctp EmptyString EmptyString age), st')
  end.
Proof.
  unfold convert, bind, deref, ret, since, age_of, response_of.
  destruct (ControlPlane_Configuration _) as [configuration|].
  - destruct (ControlPlaneConfiguration_Name configuration) as [name|]; [|reflexivity].
    destruct (ControlPlane_CreatedAt _) as [createdAt|]; [|reflexivity].
    now destruct (time_Since createdAt (world st)).
  - destruct (ControlPlane_CreatedAt _) as [createdAt|]; [|reflexivity].
    now destruct (time_Since createdAt (world st)).
Qed.

Lemma age_of_calls (cp : ControlPlane) (st : state) :
  calls (snd (age_of cp st)) = calls st.
Proof.
  unfold age_of. destruct (ControlPlane_CreatedAt cp) as [createdAt|]; [|reflexivity].
  now destruct (time_Since createdAt (world st)).
Qed.

(** [convert] calls no wrapped client. *)
Lemma convert_calls (resp : option ControlPlaneResponse) (st : state) :
  calls (snd (convert resp st)) = calls st.
Proof.
  destruct resp as [ctp|]; [|reflexivity].
  rewrite convert_cases.
  pose proof (age_of_calls (ControlPlaneResponse_ControlPlane ctp) st) as A.
  destruct (ControlPlane_Configuration _) as [configuration|].
  - destruct (ControlPlaneConfiguration_Name configuration); [|reflexivity].
    now destruct (age_of _ st).
  - now destruct (age_of _ st).
Qed.

(** Under its precondition [convert] returns. *)
Lemma convert_returns (ctp : ControlPlaneResponse) (st : state) :
  named_configuration ctp ->
  exists r st', convert (Some ctp) st = (Return r, st').
Proof.
  intros H. rewrite convert_cases. unfold named_configuration in H.
  destruct (ControlPlane_Configuration _) as [configuration|].
  - specialize (H configuration eq_refl).
    destruct (ControlPlaneConfiguration_Name configuration); [|contradiction].
    destruct (age_of _ st). eauto.
  - destruct (age_of _ st). eauto.
Qed.

(** Whatever [convert] returns was built by [response_of]. *)
Lemma convert_Return (ctp : ControlPlaneResponse) (st st' : state) (r : Response) :
  convert (Some ctp) st = (Return r, st') ->
  exists cfgName cfgStatus age,
    r = response_of ctp cfgName cfgStatus age /\
    match ControlPlane_Configuration (ControlPlaneResponse_ControlPlane ctp) with
    | Some configuration =>
        ControlPlaneConfiguration_Name configuration = Some cfgName /\
        cfgStatus = ControlPlaneConfiguration_Status configuration
    | None => cfgName = EmptyString /\ cfgStatus = EmptyString
    end.
Proof.
  rewrite convert_cases.
  destruct (ControlPlane_Configuration _) as [configuration|].
  - destruct (ControlPlaneConfiguration_Name configuration) as [name|]; [|discriminate].
    destruct (age_of _ st) as [age st1]. intros [= <- _].
    exists name, (ControlPlaneConfiguration_Status configuration), age. auto.
  - destruct (age_of _ st) as [age st1]. intros [= <- _].
    exists EmptyString, EmptyString, age. auto.
Qed.

Lemma substring_all (s : string) : substring 0 (String.length s) s = s.
Proof. induction s as [|c s IH]; simpl; [reflexivity | now rewrite IH]. Qed.

(** [formatStatus] on a status that is not empty: the first byte goes through
    [strings.ToUpper], the rest is kept. *)
Lemma formatStatus_String (c : ascii) (rest : string) :
  formatStatus (String c rest) =
  if String.eqb (String c rest) ConfigurationReady then "True"
  else ToUpper unicode_paths (String c EmptyString) ++ rest.
Proof.
  unfold formatStatus.
  replace (String.eqb (String c rest) "") with false by reflexivity.
  destruct (String.eqb (String c rest) ConfigurationReady); [reflexivity|].
  replace (String.length (String c rest) - 1) with (String.length rest)
    by (simpl; lia).
  change (substring 1 (String.length rest) (String c rest))
    with (substring 0 (String.length rest) rest).
  rewrite substring_all.
  change (substring 0 1 (String c rest)) with (String c (substring 0 0 rest)).
  now destruct rest.
Qed.

Lemma ToUpper_byte (c : ascii) :
  isASCII_byte c = true ->
  ToUpper unicode_paths (String c EmptyString) = String (toUpper_byte c) EmptyString.
Proof. intros H. unfold ToUpper. simpl. now rewrite H. Qed.

Lemma toBool_True (b : bool) : toBool b = "True" <-> b = true.
Proof. destruct b; simpl; split; intros H; congruence. Qed.

Lemma toBool_False (b : bool) : toBool b = "False" <-> b = false.
Proof. destruct b; simpl; split; intros H; congruence. Qed.

(** C5: for every backend response, the response [convert] returns has
    Synced "True"; Ready "True" iff the status is the ready status and "False"
    otherwise; and the message "Controlplane is being created", "... updated"
    or "... deleted" for the provisioning, updating or deleting status, and
    the empty message for every other status, the ready one included.
    [convert] returns such a response unless the configuration reference has
    no name, where it panics. *)
Theorem convert_status_fields (ctp : ControlPlaneResponse) (st : state) :
  match convert (Some ctp) st with
  | (Return r, _) =>
      let status := ControlPlaneResponse_Status ctp in
      Synced r = "True" /\
      (Ready r = "True" <-> status = StatusReady) /\
      (Ready r = "False" <-> status <> StatusReady) /\
      (status = StatusProvisioning -> Message r = "Controlplane is being created") /\
      (status = StatusUpdating -> Message r = "Controlplane is being updated") /\
      (status = StatusDeleting -> Message r = "Controlplane is being deleted") /\
      (status <> StatusProvisioning -> status <> StatusUpdating ->
       status <> StatusDeleting -> Message r = "") /\
      (status = StatusReady -> Message r = "")
  | (Panic, _) => ~ named_configuration ctp
  end.
Proof.
  destruct (convert (Some ctp) st) as [[r|] st'] eqn:E.
  - apply convert_Return in E as (cfgName & cfgStatus & age & -> & _).
    cbv zeta. unfold response_of; simpl.
    split; [reflexivity|].
    split; [rewrite toBool_True; apply String.eqb_eq|].
    split; [rewrite toBool_False; apply String.eqb_neq|].
    unfold toMessage.
    split; [now intros ->|].
    split; [now intros ->|].
    split; [now intros ->|].
    split; [|now intros ->].
    intros H1 H2 H3.
    apply String.eqb_neq in H1, H2, H3. now rewrite H1, H2, H3.
  - intros H. destruct (convert_returns ctp st H) as (r & st1 & R). congruence.
Qed.

(** [formatStatus] on a status whose first byte is not ASCII: [status[:1]]
    is that byte alone, and [strings.ToUpper] replaces it by the encoding of
    U+FFFD, whatever the Unicode tables say of the character it started. *)
Lemma formatStatus_lone_byte (c : ascii) (rest : string) :
  isASCII_byte c = false ->
  formatStatus (String c rest) = RuneError_utf8 ++ rest.
Proof.
  intros H. rewrite formatStatus_String.
  assert (N : String.eqb (String c rest) ConfigurationReady = false).
  { apply String.eqb_neq. intros [= -> _]. discriminate H. }
  rewrite N. unfold ToUpper. simpl. now rewrite H.
Qed.

(** C6, amended: without a configuration reference the response has an empty
    Cfg and an empty Updated; with one (and its name), Cfg is the name and
    Updated is [formatStatus] of its status, where the empty status stays
    empty, "ready" becomes "True", and any other status that starts with an
    ASCII byte has its first character upper-cased (a lower-case letter
    becomes its capital, any other ASCII character stays) and the rest
    unchanged: "pending" becomes "Pending". *)
Theorem convert_configuration_fields (ctp : ControlPlaneResponse) (st : state) :
  match ControlPlane_Configuration (ControlPlaneResponse_ControlPlane ctp) with
  | None =>
      exists r st', convert (Some ctp) st = (Return r, st') /\
                    Cfg r = "" /\ Updated r = ""
  | Some configuration =>
      forall name, ControlPlaneConfiguration_Name configuration = Some name ->
      exists r st', convert (Some ctp) st = (Return r, st') /\
                    Cfg r = name /\
                    Updated r = formatStatus (ControlPlaneConfiguration_Status configuration)
  end /\
  formatStatus "" = "" /\
  formatStatus ConfigurationReady = "True" /\
  (forall c rest, String c rest <> ConfigurationReady -> isASCII_byte c = true ->
     formatStatus (String c rest) = String (toUpper_byte c) rest) /\
  formatStatus "pending" = "Pending".
Proof.
  split.
  { rewrite convert_cases.
    destruct (ControlPlane_Configuration _) as [configuration|].
    - intros name ->. destruct (age_of _ st) as [age st']. now eexists _, _.
    - destruct (age_of _ st) as [age st']. now eexists _, _. }
  split; [reflexivity|]. split; [reflexivity|].
  split; [|reflexivity].
  intros c rest H Hc. rewrite formatStatus_String.
  apply String.eqb_neq in H. now rewrite H, (ToUpper_byte c Hc).
Qed.

(** C9: [convert] dereferences the name of the configuration reference
    without a nil check. It returns exactly when every configuration
    reference has a name, and it panics exactly when the configuration
    reference is present and its name is nil. *)
Theorem convert_total_iff (ctp : ControlPlaneResponse) (st : state) :
  (named_configuration ctp <->
   exists r st', convert (Some ctp) st = (Return r, st')) /\
  ((exists configuration,
      ControlPlane_Configuration (ControlPlaneResponse_ControlPlane ctp) = Some configuration /\
      ControlPlaneConfiguration_Name configuration = None) <->
   convert (Some ctp) st = (Panic, st)).
Proof.
  split; split.
  - apply convert_returns.
  - intros (r & st' & R) configuration HC HN.
    rewrite convert_cases, HC, HN in R. discriminate R.
  - intros (configuration & HC & HN). now rewrite convert_cases, HC, HN.
  - rewrite convert_cases.
    destruct (ControlPlane_Configuration _) as [configuration|].
    + destruct (ControlPlaneConfiguration_Name configuration) eqn:HN.
      * destruct (age_of _ st). discriminate.
      * intros _. now exists configuration.
    + destruct (age_of _ st). discriminate.
Qed.

End Conversion.

Section Methods.
Context {ext : External}.

(** The state after one call of a wrapped client that left the world [w]. *)
Definition called (st : state) (what : Call) (w : World) : state :=
  {| world := w; calls := (calls st ++ [what])%list |}.

(** A call followed by the rest of the method. *)
Lemma bind_invoke {A B : Type} (what : Call) (method : World -> A * World)
    (k : A -> M B) (st : state) :
  bind (invoke what method) k st =
  let '(a, w) := method (world st) in k a (called st what w).
Proof.
  unfold bind, invoke, called. now destruct (method (world st)).
Qed.

(** A dereference followed by the rest of the method. *)
Lemma bind_deref {A B : Type} (p : option A) (k : A -> M B) (st : state) :
  bind (deref p) k st = match p with
                        | Some a => k a st
                        | None => (Panic, st)
                        end.
Proof. now destruct p. Qed.

(** The result of a method that hands on what [convert] makes of the
    response of the backend. *)
Definition converted (resp : option ControlPlaneResponse) (st : state)
    : outcome (option Response * option error) * state :=
  match convert resp st with
  | (Return r, st') => (Return (Some r, None), st')
  | (Panic, st') => (Panic, st')
  end.

Lemma converted_calls (resp : option ControlPlaneResponse) (st : state) :
  calls (snd (converted resp st)) = calls st.
Proof.
  unfold converted. pose proof (convert_calls resp st) as H.
  now destruct (convert resp st) as [[r|] st'].
Qed.

Lemma namespace_test (namespace : string) :
  negb (String.eqb namespace "") = true <-> namespace <> "".
Proof.
  destruct (String.eqb_spec namespace ""); simpl; split; intros H; congruence.
Qed.

(** C1: with a namespace that is not empty, Get, List, Create and Delete
    return the error "namespace is not supported for Upbound Cloud control
    planes" and leave the state as it was: the world is untouched and no call
    of a wrapped client, backend or configuration lookup, is recorded. *)
Theorem namespace_unsupported (c : Client) (ctx : context) (ctp : NamespacedName)
    (namespace : string) (opts : Options) (st : state) :
  NamespacedName_Namespace ctp <> "" ->
  namespace <> "" ->
  let err := errors_New "namespace is not supported for Upbound Cloud control planes" in
  Get c ctx ctp st = (Return (None, Some err), st) /\
  List_ c ctx namespace st = (Return (None, Some err), st) /\
  Create c ctx ctp opts st = (Return (None, Some err), st) /\
  Delete c ctx ctp st = (Return (Some err), st).
Proof.
  intros H1 H2. apply namespace_test in H1, H2.
  unfold Get, List_, Create, Delete. rewrite H1, H2. now repeat split.
Qed.

(** C3: with an empty namespace, Get and Delete call the backend once. When
    it reports an error that is a not-found error, they return the typed
    not-found condition around it; any other error is returned as it is, and
    it is not the typed condition; when it reports no error, Get returns what
    [convert] makes of the response and Delete returns no error. *)
Theorem Get_Delete_outcomes (c : Client) (ctx : context) (ctp : NamespacedName)
    (st : state) :
  NamespacedName_Namespace ctp = "" ->
  (forall resp err w,
     ctpClient_Get (Client_ctp c) ctx (Client_account c) (NamespacedName_Name ctp) (world st)
       = ((resp, err), w) ->
     let st' := called st (CtpGet (Client_account c) (NamespacedName_Name ctp)) w in
     match err with
     | Some e =>
         if IsNotFound e
         then Get c ctx ctp st
                = (Return (None, Some (NewNotFound (Some (external e)))), st') /\
              controlplane_IsNotFound (Some (NewNotFound (Some (external e)))) = true
         else Get c ctx ctp st = (Return (None, Some (external e)), st') /\
              controlplane_IsNotFound (Some (external e)) = false
     | None => Get c ctx ctp st = converted resp st'
     end) /\
  (forall err w,
     ctpClient_Delete (Client_ctp c) ctx (Client_account c) (NamespacedName_Name ctp) (world st)
       = (err, w) ->
     let st' := called st (CtpDelete (Client_account c) (NamespacedName_Name ctp)) w in
     match err with
     | Some e =>
         if IsNotFound e
         then Delete c ctx ctp st = (Return (Some (NewNotFound (Some (external e)))), st') /\
              controlplane_IsNotFound (Some (NewNotFound (Some (external e)))) = true
         else Delete c ctx ctp st = (Return (Some (external e)), st') /\
              controlplane_IsNotFound (Some (external e)) = false
     | None => Delete c ctx ctp st = (Return None, st')
     end).
Proof.
  intros HN. split.
  - intros resp err w HB. cbv zeta.
    unfold Get, bind, invoke, ret, converted, called. rewrite HN. simpl. rewrite HB. simpl.
    destruct err as [e|]; simpl.
    + destruct (IsNotFound e); now split.
    + now destruct (convert resp _) as [[r|] st'].
  - intros err w HB. cbv zeta.
    unfold Delete, bind, invoke, ret, called. rewrite HN. simpl. rewrite HB. simpl.
    destruct err as [e|]; simpl; [|reflexivity].
    destruct (IsNotFound e); now split.
Qed.

(** The parameters [Create] submits. *)
Definition create_parameters (ctp : NamespacedName) (opts : Options)
    (configurationID : option UUID) : ControlPlaneCreateParameters :=
  {| ControlPlaneCreateParameters_Name := NamespacedName_Name ctp;
     ControlPlaneCreateParameters_Description := Options_Description opts;
     ControlPlaneCreateParameters_ConfigurationID := configurationID |}.

(** [Create] from the create call on. *)
Definition submit (c : Client) (ctx : context) (params : ControlPlaneCreateParameters)
    : M (option Response * option error) :=
  bind (invoke (CtpCreate (Client_account c) params)
          (ctpClient_Create (Client_ctp c) ctx (Client_account c) params))
       (fun x => let '(resp, err) := x in
                 match option_map external err with
                 | Some _ => ret (None, option_map external err)
                 | None => bind (convert resp) (fun r => ret (Some r, None))
                 end).

Lemma submit_outcome (c : Client) (ctx : context)
    (params : ControlPlaneCreateParameters) (st : state) :
  submit c ctx params st =
  let '((resp, err), w) :=
    ctpClient_Create (Client_ctp c) ctx (Client_account c) params (world st) in
  let st' := called st (CtpCreate (Client_account c) params) w in
  match err with
  | Some e => (Return (None, Some (external e)), st')
  | None => converted resp st'
  end.
Proof.
  unfold submit, bind, invoke, ret, converted, called. cbv beta.
  destruct (ctpClient_Create _ ctx _ params (world st)) as [[resp err] w].
  destruct err as [e|]; simpl; [reflexivity|].
  now destruct (convert resp _) as [[r|] st'].
Qed.

(** [Create] with an empty namespace. *)
Lemma Create_empty_namespace (c : Client) (ctx : context) (ctp : NamespacedName)
    (opts : Options) :
  NamespacedName_Namespace ctp = "" ->
  Create c ctx ctp opts =
  match Options_ConfigurationName opts with
  | Some configurationName =>
      bind (invoke (CfgGet (Client_account c) configurationName)
              (cfgGetter_Get (Client_cfg c) ctx (Client_account c) configurationName))
           (fun x => let '(cfg, err) := x in
                     match option_map external err with
                     | Some _ => ret (None, option_map external err)
                     | None =>
                         bind (deref cfg)
                              (fun cfg =>
                                 submit c ctx
                                   (create_parameters ctp opts
                                      (Some (ConfigurationResponse_ID cfg))))
                     end)
  | None => submit c ctx (create_parameters ctp opts None)
  end.
Proof. intros HN. unfold Create. rewrite HN. reflexivity. Qed.

(** C4: with an empty namespace and a configuration name, [Create] first
    makes one lookup call. When the lookup fails, its error is returned as it
    is and the lookup is the only call made. When it succeeds, the create call
    follows, and its parameters carry the identifier the lookup returned.
    Without a configuration name the create call is the only call, and its
    parameters carry no configuration identifier. *)
Theorem Create_lookup (c : Client) (ctx : context) (ctp : NamespacedName)
    (opts : Options) (st : state) :
  NamespacedName_Namespace ctp = "" ->
  match Options_ConfigurationName opts with
  | Some configurationName =>
      let lookup := CfgGet (Client_account c) configurationName in
      let '((cfg, err), w) :=
        cfgGetter_Get (Client_cfg c) ctx (Client_account c) configurationName (world st) in
      match err, cfg with
      | Some e, _ =>
          Create c ctx ctp opts st = (Return (None, Some (external e)), called st lookup w)
      | None, Some configuration =>
          let params :=
            create_parameters ctp opts (Some (ConfigurationResponse_ID configuration)) in
          let '((resp, err'), w') :=
            ctpClient_Create (Client_ctp c) ctx (Client_account c) params w in
          let st' := called (called st lookup w) (CtpCreate (Client_account c) params) w' in
          calls (snd (Create c ctx ctp opts st))
            = (calls st ++ [lookup; CtpCreate (Client_account c) params])%list /\
          Create c ctx ctp opts st =
            match err' with
            | Some e => (Return (None, Some (external e)), st')
            | None => converted resp st'
            end
      | None, None =>
          Create c ctx ctp opts st = (Panic, called st lookup w)
      end
  | None =>
      let params := create_parameters ctp opts None in
      let '((resp, err), w) :=
        ctpClient_Create (Client_ctp c) ctx (Client_account c) params (world st) in
      let st' := called st (CtpCreate (Client_account c) params) w in
      calls (snd (Create c ctx ctp opts st))
        = (calls st ++ [CtpCreate (Client_account c) params])%list /\
      Create c ctx ctp opts st =
        match err with
        | Some e => (Return (None, Some (external e)), st')
        | None => converted resp st'
        end
  end.
Proof.
  intros HN. rewrite (Create_empty_namespace c ctx ctp opts HN).
  destruct (Options_ConfigurationName opts) as [configurationName|]; cbv zeta.
  - rewrite bind_invoke.
    destruct (cfgGetter_Get _ ctx _ configurationName (world st)) as [[cfg err] w].
    destruct err as [e|]; [reflexivity|].
    destruct cfg as [configuration|]; [|reflexivity].
    simpl. rewrite bind_deref, submit_outcome. simpl world.
    destruct (ctpClient_Create _ ctx _ _ w) as [[resp err'] w'].
    split; [|reflexivity].
    destruct err' as [e|]; [|rewrite converted_calls];
      unfold called; simpl; now rewrite <- app_assoc.
  - rewrite submit_outcome.
    destruct (ctpClient_Create _ ctx _ _ (world st)) as [[resp err] w].
    split; [|reflexivity].
    destruct err as [e|]; [|rewrite converted_calls]; reflexivity.
Qed.

Section KubeConfig.
Variable Config : Type.
Variable BuildControlPlaneKubeconfig : option URL -> string -> string -> bool -> Config.

(** C7: for every key, whatever its namespace, and in every state,
    [GetKubeConfig] returns a credential structure and a nil error, calls no
    wrapped client, and leaves the world as it is; the structure is the one
    built from the proxy endpoint, the joined account and name, and the token,
    so two calls that agree on these return the same. *)
Theorem GetKubeConfig_total (c : Client) (ctx : context) (ctp : NamespacedName)
    (st : state) :
  GetKubeConfig Config BuildControlPlaneKubeconfig c ctx ctp st
  = (Return (Some (BuildControlPlaneKubeconfig
                     (Client_proxy c)
                     (path_Join [Client_account c; NamespacedName_Name ctp])
                     (Client_token c)
                     false),
             None),
     st) /\
  (forall (c' : Client) (ctx' : context) (ctp' : NamespacedName) (st' : state),
     Client_proxy c' = Client_proxy c ->
     path_Join [Client_account c'; NamespacedName_Name ctp']
       = path_Join [Client_account c; NamespacedName_Name ctp] ->
     Client_token c' = Client_token c ->
     fst (GetKubeConfig Config BuildControlPlaneKubeconfig c' ctx' ctp' st')
     = fst (GetKubeConfig Config BuildControlPlaneKubeconfig c ctx ctp st)).
Proof.
  split; [reflexivity|].
  intros c' ctx' ctp' st' Hp Hj Ht. unfold GetKubeConfig, ret. simpl.
  now rewrite Hp, Hj, Ht.
Qed.

End KubeConfig.

(** The responses of a list of backend elements, converted one after the
    other from left to right. *)
Fixpoint convert_all (elements : list ControlPlaneResponse) : M (list Response) :=
  match elements with
  | [] => ret []
  | element :: rest =>
      bind (convert (Some element))
           (fun r => bind (convert_all rest) (fun rs => ret (r :: rs)))
  end.

(** [r] is what [convert] returns for [element] at some reading of the
    clock. *)
Definition conversion_of (element : ControlPlaneResponse) (r : Response) : Prop :=
  exists st st', convert (Some element) st = (Return r, st').

(** The body of the loop of [List]. *)
Definition append_converted (resps : list Response) (r : ControlPlaneResponse)
    : M (list Response) :=
  bind (convert (Some r)) (fun x => ret (resps ++ [x])%list).

Lemma bind_eq {A B : Type} (m : M A) (k : A -> M B) (st : state) :
  bind m k st = match m st with
                | (Return a, st') => k a st'
                | (Panic, st') => (Panic, st')
                end.
Proof. reflexivity. Qed.

(** The loop of [List] appends the conversions to what it has. *)
Lemma for_range_convert (elements : list ControlPlaneResponse) :
  forall (resps : list Response) (st : state),
    for_range elements append_converted resps st
    = match convert_all elements st with
      | (Return rs, st') => (Return (resps ++ rs)%list, st')
      | (Panic, st') => (Panic, st')
      end.
Proof.
  induction elements as [|element rest IH]; intros resps st; simpl.
  - unfold ret. now rewrite app_nil_r.
  - rewrite (bind_eq (append_converted resps element)).
    unfold append_converted at 1.
    rewrite (bind_eq (convert (Some element))).
    rewrite (bind_eq (convert (Some element))).
    destruct (convert (Some element) st) as [[r|] st1]; [|reflexivity].
    unfold ret at 1. rewrite IH, bind_eq.
    destruct (convert_all rest st1) as [[rs|] st2]; [|reflexivity].
    unfold ret. now rewrite <- app_assoc.
Qed.

Lemma convert_all_calls (elements : list ControlPlaneResponse) :
  forall st, calls (snd (convert_all elements st)) = calls st.
Proof.
  induction elements as [|element rest IH]; intros st; simpl; [reflexivity|].
  unfold bind at 1. pose proof (convert_calls (Some element) st) as H1.
  destruct (convert (Some element) st) as [[r|] st1]; simpl in *; [|exact H1].
  unfold bind. specialize (IH st1).
  destruct (convert_all rest st1) as [[rs|] st2]; simpl in *; congruence.
Qed.

(** What [convert_all] returns holds one conversion per element, in order. *)
Lemma convert_all_Return (elements : list ControlPlaneResponse) :
  forall st rs st', convert_all elements st = (Return rs, st') ->
                    Forall2 conversion_of elements rs.
Proof.
  induction elements as [|element rest IH]; intros st rs st' H; simpl in H.
  - injection H as <- _. constructor.
  - unfold bind at 1 in H.
    destruct (convert (Some element) st) as [[r|] st1] eqn:E; [|discriminate H].
    unfold bind in H.
    destruct (convert_all rest st1) as [[rs'|] st2] eqn:E'; [|discriminate H].
    injection H as <- _. constructor; [now exists st, st1 | now apply (IH st1 rs' st2)].
Qed.

(** [convert_all] returns when every element satisfies the precondition of
    [convert]. *)
Lemma convert_all_returns (elements : list ControlPlaneResponse) :
  Forall named_configuration elements ->
  forall st, exists rs st', convert_all elements st = (Return rs, st').
Proof.
  induction 1 as [|element rest H _ IH]; intros st; simpl.
  - now exists [], st.
  - destruct (convert_returns element st H) as (r & st1 & E).
    destruct (IH st1) as (rs & st2 & E').
    exists (r :: rs), st2. unfold bind at 1. rewrite E. unfold bind. now rewrite E'.
Qed.

(** C8: with an empty namespace, [List] calls the backend once, with the
    page size 100. When the backend returns a list and no error, and every
    element satisfies the precondition of [convert], the result holds one
    conversion per element of the backend, in its order, and no error; on a
    list with no element the result is the empty slice (not nil) and no
    error. *)
Theorem List_converts_all (c : Client) (ctx : context) (st : state) :
  maxItems = 100%Z /\
  calls (snd (List_ c ctx "" st))
    = (calls st ++ [CtpList (Client_account c) [WithSize 100]])%list /\
  (forall l w,
     ctpClient_List (Client_ctp c) ctx (Client_account c) [WithSize 100] (world st)
       = ((Some l, None), w) ->
     (Forall named_configuration (ControlPlaneListResponse_ControlPlanes l) ->
      exists rs st',
        List_ c ctx "" st = (Return (Some rs, None), st') /\
        Forall2 conversion_of (ControlPlaneListResponse_ControlPlanes l) rs /\
        List.length rs = List.length (ControlPlaneListResponse_ControlPlanes l)) /\
     (ControlPlaneListResponse_ControlPlanes l = [] ->
      List_ c ctx "" st
      = (Return (Some [], None), called st (CtpList (Client_account c) [WithSize 100]) w))).
Proof.
  assert (E : List_ c ctx "" st =
              let '((l, err), w) :=
                ctpClient_List (Client_ctp c) ctx (Client_account c) [WithSize 100] (world st) in
              let st' := called st (CtpList (Client_account c) [WithSize 100]) w in
              match err, l with
              | Some e, _ => (Return (None, Some (external e)), st')
              | None, None => (Panic, st')
              | None, Some l =>
                  match convert_all (ControlPlaneListResponse_ControlPlanes l) st' with
                  | (Return rs, st'') => (Return (Some rs, None), st'')
                  | (Panic, st'') => (Panic, st'')
                  end
              end).
  { unfold List_. change (negb (String.eqb "" "")) with false. cbv iota.
    rewrite bind_invoke.
    change maxItems with 100%Z.
    destruct (ctpClient_List _ ctx _ _ (world st)) as [[l err] w]. cbv zeta.
    destruct err as [e|]; [reflexivity|].
    destruct l as [l|]; [|reflexivity].
    unfold option_map. rewrite bind_deref.
    rewrite bind_eq.
    change (for_range ?xs _ ?acc ?s) with (for_range xs append_converted acc s).
    rewrite for_range_convert.
    now destruct (convert_all _ _) as [[rs|] st'']. }
  split; [reflexivity|]. split.
  - rewrite E.
    destruct (ctpClient_List _ ctx _ _ (world st)) as [[l err] w]. cbv zeta.
    destruct err as [e|]; [reflexivity|].
    destruct l as [l|]; [|reflexivity].
    pose proof (convert_all_calls (ControlPlaneListResponse_ControlPlanes l)
                  (called st (CtpList (Client_account c) [WithSize 100]) w)) as H.
    now destruct (convert_all _ _) as [[rs|] st''].
  - intros l w HB. rewrite E, HB. cbv zeta. split.
    + intros HW.
      destruct (convert_all_returns _ HW
                  (called st (CtpList (Client_account c) [WithSize 100]) w))
        as (rs & st' & R).
      exists rs, st'. rewrite R. split; [reflexivity|].
      pose proof (convert_all_Return _ _ _ _ R) as F.
      split; [exact F | symmetry; exact (Forall2_length F)].
    + intros ->. reflexivity.
Qed.

End Methods.

(** *** A concrete backend

    Identifiers are strings, times are ticks of a clock that every reading
    and every call advances, and an error of the wrapped clients is an HTTP
    status. *)
Definition example_external : External :=
  {| context := unit;
     UUID := string;
     UUID_String := fun id => id;
     Time := nat;
     Duration := nat;
     URL := string;
     sdkError := nat;
     IsNotFound := Nat.eqb 404;
     World := nat;
     time_Since := fun t now => (now - t, S now);
     path_Join := fun elements => Join elements "/";
     unicode_paths := ascii_only |}.

#[local] Existing Instance example_external.

Definition example_response (name : string) (status : Status)
    (configuration : option ControlPlaneConfiguration) : ControlPlaneResponse :=
  {| ControlPlaneResponse_ControlPlane :=
       {| ControlPlane_ID := "id-" ++ name;
          ControlPlane_Name := name;
          ControlPlane_Configuration := configuration;
          ControlPlane_CreatedAt := Some 2 |};
     ControlPlaneResponse_Status := status |}.

Definition example_configuration (name : option string) (status : ConfigurationStatus)
    : ControlPlaneConfiguration :=
  {| ControlPlaneConfiguration_Name := name;
     ControlPlaneConfiguration_Status := status |}.

Definition example_list : ControlPlaneListResponse :=
  {| ControlPlaneListResponse_ControlPlanes :=
       [example_response "one" "ready" None;
        example_response "two" "provisioning"
          (Some (example_configuration (Some "base") "pending"))] |}.

Definition example_ctp : ctpClient :=
  {| ctpClient_Create := fun _ _ params now =>
       if String.eqb (ControlPlaneCreateParameters_Name params) "taken"
       then ((None, Some 409), S now)
       else ((Some (example_response (ControlPlaneCreateParameters_Name params)
                      "provisioning"
                      match ControlPlaneCreateParameters_ConfigurationID params with
                      | Some id => Some (example_configuration (Some id) "installing")
                      | None => None
                      end),
              None), S now);
     ctpClient_Delete := fun _ _ name now =>
       if String.eqb name "missing" then (Some 404, S now)
       else if String.eqb name "down" then (Some 500, S now)
       else (None, S now);
     ctpClient_Get := fun _ _ name now =>
       if String.eqb name "missing" then ((None, Some 404), S now)
       else if String.eqb name "down" then ((None, Some 500), S now)
       else ((Some (example_response name "ready" None), None), S now);
     ctpClient_List := fun _ account _ now =>
       if String.eqb account "empty"
       then ((Some {| ControlPlaneListResponse_ControlPlanes := [] |}, None), S now)
       else ((Some example_list, None), S now) |}.

Definition example_cfg : cfgGetter :=
  {| cfgGetter_Get := fun _ _ name now =>
       if String.eqb name "unknown" then ((None, Some 404), S now)
       else ((Some {| ConfigurationResponse_ID := "cfg-" ++ name |}, None), S now) |}.

Definition example_client (account : string) : Client :=
  New example_ctp example_cfg account [WithToken "secret"; WithProxyEndpoint (Some "https://proxy")].

Definition key (namespace name : string) : NamespacedName :=
  {| NamespacedName_Namespace := namespace; NamespacedName_Name := name |}.

Definition start : state := {| world := 10; calls := [] |}.

Definition options (configurationName : option string) : Options :=
  {| Options_Description := "demo"; Options_ConfigurationName := configurationName |}.

(** *** The theorems at the concrete backend *)

(** C1 at the key default/cp. *)
Lemma namespace_unsupported_witness :
  Get (example_client "acme") tt (key "default" "cp") start
  = (Return (None, Some unsupported_namespace), start) /\
  List_ (example_client "acme") tt "default" start
  = (Return (None, Some unsupported_namespace), start) /\
  Create (example_client "acme") tt (key "default" "cp") (options (Some "base")) start
  = (Return (None, Some unsupported_namespace), start) /\
  Delete (example_client "acme") tt (key "default" "cp") start
  = (Return (Some unsupported_namespace), start).
Proof.
  apply (namespace_unsupported (example_client "acme") tt (key "default" "cp")
           "default" (options (Some "base")) start); discriminate.
Defined.

(** C3 at a control plane the backend does not know, at a backend failure,
    and at a control plane it knows. *)
Lemma Get_Delete_outcomes_witness :
  Get (example_client "acme") tt (key "" "missing") start
  = (Return (None, Some (NewNotFound (Some (external 404)))),
     {| world := 11; calls := [CtpGet "acme" "missing"] |}) /\
  Get (example_client "acme") tt (key "" "down") start
  = (Return (None, Some (external 500)),
     {| world := 11; calls := [CtpGet "acme" "down"] |}) /\
  Delete (example_client "acme") tt (key "" "missing") start
  = (Return (Some (NewNotFound (Some (external 404)))),
     {| world := 11; calls := [CtpDelete "acme" "missing"] |}) /\
  Delete (example_client "acme") tt (key "" "cp") start
  = (Return None, {| world := 11; calls := [CtpDelete "acme" "cp"] |}).
Proof.
  pose proof (Get_Delete_outcomes (example_client "acme") tt (key "" "missing") start eq_refl)
    as [G1 D1].
  pose proof (Get_Delete_outcomes (example_client "acme") tt (key "" "down") start eq_refl)
    as [G2 _].
  pose proof (Get_Delete_outcomes (example_client "acme") tt (key "" "cp") start eq_refl)
    as [_ D3].
  specialize (G1 None (Some 404) 11 eq_refl).
  specialize (D1 (Some 404) 11 eq_refl).
  specialize (G2 None (Some 500) 11 eq_refl).
  specialize (D3 None 11 eq_refl).
  split; [exact (proj1 G1) | split; [exact (proj1 G2) | split; [exact (proj1 D1) | exact D3]]].
Defined.

(** C4 at a lookup that fails, at one that succeeds, and without a
    configuration name. *)
Lemma Create_lookup_witness :
  Create (example_client "acme") tt (key "" "cp") (options (Some "unknown")) start
  = (Return (None, Some (external 404)),
     {| world := 11; calls := [CfgGet "acme" "unknown"] |}) /\
  calls (snd (Create (example_client "acme") tt (key "" "cp") (options (Some "base")) start))
  = [CfgGet "acme" "base";
     CtpCreate "acme" (create_parameters (key "" "cp") (options (Some "base")) (Some "cfg-base"))] /\
  calls (snd (Create (example_client "acme") tt (key "" "cp") (options None) start))
  = [CtpCreate "acme" (create_parameters (key "" "cp") (options None) None)].
Proof.
  split; [|split].
  - exact (Create_lookup (example_client "acme") tt (key "" "cp") (options (Some "unknown"))
             start eq_refl).
  - exact (proj1 (Create_lookup (example_client "acme") tt (key "" "cp")
                    (options (Some "base")) start eq_refl)).
  - exact (proj1 (Create_lookup (example_client "acme") tt (key "" "cp") (options None)
                    start eq_refl)).
Defined.

(** C5 at a ready control plane and at one that is being provisioned. *)
Lemma convert_status_fields_witness :
  (forall r st', convert (Some (example_response "cp" "ready" None)) start = (Return r, st') ->
                 Synced r = "True" /\ Ready r = "True" /\ Message r = "") /\
  (forall r st', convert (Some (example_response "cp" "provisioning" None)) start = (Return r, st') ->
                 Synced r = "True" /\ Ready r = "False" /\
                 Message r = "Controlplane is being created").
Proof.
  split; intros r st' E.
  - pose proof (convert_status_fields (example_response "cp" "ready" None) start) as H.
    rewrite E in H. cbv zeta in H.
    destruct H as (HS & HR & _ & _ & _ & _ & _ & HM).
    split; [exact HS | split; [now apply HR | now apply HM]].
  - pose proof (convert_status_fields (example_response "cp" "provisioning" None) start) as H.
    rewrite E in H. cbv zeta in H.
    destruct H as (HS & _ & HR & HM & _).
    split; [exact HS | split; [apply HR; discriminate | now apply HM]].
Defined.

(** The status "\xc3\xa9a": the two bytes of a lower-case e with an acute
    accent in UTF-8, then "a". *)
Definition accented_status : ConfigurationStatus :=
  String "195" (String "169" "a").

(** C6, as the claim states it, fails on a status whose first byte is not
    ASCII. For "\xc3\xa9a" the default case of [formatStatus] upper-cases
    [status[:1]], the lone byte C3: the result is the three bytes of U+FFFD
    followed by [status[1:]], the bytes A9 and "a". That is not the status
    with its first character upper-cased ("\xc3\x89a"), and it is no single
    byte in place of the first one followed by the unchanged rest either. *)
Lemma formatStatus_first_character_counterexample :
  formatStatus accented_status
  = String "239" (String "191" (String "189" (String "169" "a"))) /\
  formatStatus accented_status <> String "195" (String "137" "a") /\
  (forall c, formatStatus accented_status <> String c (String "169" "a")) /\
  exists r st',
    convert (Some (example_response "cp" "ready"
                     (Some (example_configuration (Some "base") accented_status)))) start
    = (Return r, st') /\
    Updated r = String "239" (String "191" (String "189" (String "169" "a"))).
Proof.
  assert (E : formatStatus accented_status
              = String "239" (String "191" (String "189" (String "169" "a"))))
    by exact (formatStatus_lone_byte "195" (String "169" "a") eq_refl).
  split; [exact E|]. rewrite E.
  split; [discriminate|]. split; [intros c; discriminate|].
  eexists _, _. split; [lazy; reflexivity | reflexivity].
Qed.

(** C6 at a configuration that is being installed. *)
Lemma convert_configuration_fields_witness :
  (exists r st',
     convert (Some (example_response "cp" "ready"
                      (Some (example_configuration (Some "base") "installing")))) start
     = (Return r, st') /\
     Cfg r = "base" /\ Updated r = formatStatus "installing") /\
  formatStatus "installing" = "Installing".
Proof.
  pose proof (convert_configuration_fields
                (example_response "cp" "ready"
                   (Some (example_configuration (Some "base") "installing")))
                start) as (HC & _ & _ & HA & _).
  split.
  - destruct (HC "base" eq_refl) as (r & st' & E & H1 & H2).
    exists r, st'. split; [exact E | split; [exact H1 | exact H2]].
  - apply (HA "i"%char "nstalling"); [discriminate | reflexivity].
Defined.

(** C8 at an account with two control planes and at one with none. *)
Lemma List_converts_all_witness :
  (exists rs st',
     List_ (example_client "acme") tt "" start = (Return (Some rs, None), st') /\
     List.length rs = 2) /\
  List_ (example_client "empty") tt "" start
  = (Return (Some [], None), {| world := 11; calls := [CtpList "empty" [WithSize 100]] |}).
Proof.
  split.
  - destruct (List_converts_all (example_client "acme") tt start) as (_ & _ & H).
    destruct (H example_list 11 eq_refl) as [H1 _].
    destruct H1 as (rs & st' & E & _ & L).
    + repeat constructor; intros configuration [= <-]; discriminate.
    + exists rs, st'. split; [exact E | exact L].
  - destruct (List_converts_all (example_client "empty") tt start) as (_ & _ & H).
    exact (proj2 (H {| ControlPlaneListResponse_ControlPlanes := [] |} 11 eq_refl) eq_refl).
Defined.

(** C9 at a configuration reference without a name. *)
Lemma convert_total_iff_witness :
  convert (Some (example_response "cp" "ready"
                   (Some (example_configuration None "ready")))) start
  = (Panic, start).
Proof.
  apply (proj2 (convert_total_iff
                  (example_response "cp" "ready" (Some (example_configuration None "ready")))
                  start)).
  now exists (example_configuration None "ready").
Defined.

(** C7 with a builder that keeps its arguments. *)
Example GetKubeConfig_example :
  GetKubeConfig (option string * string * string * bool)
    (fun proxy path token flag => (proxy, path, token, flag))
    (example_client "acme") tt (key "default" "cp") start
  = (Return (Some (Some "https://proxy", "acme/cp", "secret", false), None), start).
Proof. reflexivity. Qed.

End CloudSpec.

(* ================================================================== *)
(** ** Further properties of package [dep] *)
(* ================================================================== *)

Module DepMore.
Import GoStrings GoStringsFacts Dep.

Lemma append_empty (s : string) : s ++ "" = s.
Proof. induction s as [|c s IH]; simpl; [reflexivity | now rewrite IH]. Qed.

(** [ImgTag] is the identifier, a colon and the constraints. *)
Lemma ImgTag_eq (Identifier : Dependency -> string) (d : Dependency) :
  ImgTag Identifier d = Identifier d ++ String ":" (Constraints d).
Proof. unfold ImgTag, packageTagFmt. simpl. now rewrite append_empty. Qed.

(** Cutting at the first separator undoes a concatenation whose left part is
    free of the separator. *)
Lemma Cut_append (a b : string) (sep : ascii) :
  Count a sep = 0 -> Cut (a ++ String sep b) sep = (a, Some b).
Proof.
  induction a as [|c a IH]; simpl.
  - intros _. now rewrite Ascii.eqb_refl.
  - destruct (c =? sep)%char; [discriminate|]. intros H. now rewrite (IH H).
Qed.

Lemma New_Package_hd (U : unicode) (defaultVer pkg t : string) :
  Package (New U defaultVer pkg t) = hd EmptyString (Split pkg "@").
Proof. unfold New. now destruct (String.eqb _ _). Qed.

Lemma New_Constraints_nth (U : unicode) (defaultVer pkg t : string) :
  Constraints (New U defaultVer pkg t) =
  if Nat.eqb (List.length (Split pkg "@")) 2
  then nth 1 (Split pkg "@") EmptyString else defaultVer.
Proof. unfold New. now destruct (String.eqb _ _). Qed.

Lemma New_Package_Count (U : unicode) (defaultVer pkg t : string) :
  Count (Package (New U defaultVer pkg t)) "@" = 0.
Proof.
  rewrite New_Package_hd. pose proof (Split_pieces pkg "@") as F.
  destruct (Split pkg "@") as [|piece pieces]; [reflexivity|].
  now inversion F.
Qed.

(** X1: the package [New] returns never holds an "@", whatever the input;
    and when the input holds exactly one "@", neither do the constraints. *)
Theorem New_no_separator (U : unicode) (defaultVer pkg t : string) :
  Count (Package (New U defaultVer pkg t)) "@" = 0 /\
  (Count pkg "@" = 1 -> Count (Constraints (New U defaultVer pkg t)) "@" = 0).
Proof.
  split; [apply New_Package_Count|].
  intros H. rewrite New_Constraints_nth.
  pose proof (Split_pieces pkg "@") as F.
  destruct (Split_Count_1 pkg "@" H) as (before & after & S & _).
  rewrite S in *. simpl. inversion F as [|? ? _ F']. now inversion F'.
Qed.

(** X1 at an input with one "@" and at one with three. *)
Lemma New_no_separator_witness :
  Count (Package (New ascii_only "latest" "a@b@c@d" "provider")) "@" = 0 /\
  Count (Constraints (New ascii_only "latest" "acme/db@v1" "provider")) "@" = 0.
Proof.
  split.
  - exact (proj1 (New_no_separator ascii_only "latest" "a@b@c@d" "provider")).
  - exact (proj2 (New_no_separator ascii_only "latest" "acme/db@v1" "provider") eq_refl).
Defined.

(** X2: parsing the package of a parsed dependency again, with the same
    type hint, gives the same package and type, and the default constraints:
    a version that was split off is not kept in the package. *)
Theorem New_reparse (U : unicode) (defaultVer pkg t : string) :
  New U defaultVer (Package (New U defaultVer pkg t)) t =
  {| Package := Package (New U defaultVer pkg t);
     Type_ := Type_ (New U defaultVer pkg t);
     Constraints := defaultVer |}.
Proof.
  pose proof (New_Package_Count U defaultVer pkg t) as H.
  destruct (Split_Count_0 _ _ H) as [S _].
  set (p := Package (New U defaultVer pkg t)) in *.
  unfold New at 1. rewrite S. simpl.
  unfold New. now destruct (String.eqb _ _).
Qed.

(** X3: when the identifier holds no colon, cutting the image tag at its
    first colon gives back the identifier and the constraints. *)
Theorem ImgTag_Cut (Identifier : Dependency -> string) (d : Dependency) :
  Count (Identifier d) ":" = 0 ->
  Cut (ImgTag Identifier d) ":" = (Identifier d, Some (Constraints d)).
Proof. intros H. rewrite ImgTag_eq. now apply Cut_append. Qed.

(** X3 at the dependency parsed from "acme/db@v1.2.3". *)
Lemma ImgTag_Cut_witness :
  Cut (ImgTag Package (New ascii_only "latest" "acme/db@v1.2.3" "provider")) ":"
  = ("acme/db", Some "v1.2.3").
Proof.
  exact (ImgTag_Cut Package (New ascii_only "latest" "acme/db@v1.2.3" "provider") eq_refl).
Defined.

(** X4: with the package as identifier, the image tag of a parsed input
    that holds exactly one "@" is the input with its "@" replaced by a colon;
    for an input without "@" it is the input, a colon and the default
    constraints; and the type hint has no part in it. *)
Theorem ImgTag_New (U : unicode) (defaultVer pkg t : string) :
  (Count pkg "@" = 1 ->
   exists before after,
     pkg = before ++ String "@" after /\
     ImgTag Package (New U defaultVer pkg t) = before ++ String ":" after) /\
  (Count pkg "@" = 0 ->
   ImgTag Package (New U defaultVer pkg t) = pkg ++ String ":" defaultVer) /\
  (forall t', ImgTag Package (New U defaultVer pkg t')
              = ImgTag Package (New U defaultVer pkg t)).
Proof.
  rewrite ImgTag_eq, New_Package_hd, New_Constraints_nth, Split_length.
  split; [|split].
  - intros H. pose proof (Join_Split pkg "@") as J.
    destruct (Split_Count_1 pkg "@" H) as (before & after & S & _).
    rewrite S in *. rewrite H. simpl in *. now exists before, after.
  - intros H. destruct (Split_Count_0 pkg "@" H) as [S _]. now rewrite S, H.
  - intros t'. now rewrite ImgTag_eq, New_Package_hd, New_Constraints_nth, Split_length.
Qed.

(** X4 at "acme/db@v1.2.3" and at "acme/db". *)
Lemma ImgTag_New_witness :
  ImgTag Package (New ascii_only "latest" "acme/db" "configuration") = "acme/db:latest" /\
  exists before after,
    "acme/db@v1.2.3" = before ++ String "@" after /\
    ImgTag Package (New ascii_only "latest" "acme/db@v1.2.3" "provider")
    = before ++ String ":" after.
Proof.
  split.
  - exact (proj1 (proj2 (ImgTag_New ascii_only "latest" "acme/db" "configuration")) eq_refl).
  - exact (proj1 (ImgTag_New ascii_only "latest" "acme/db@v1.2.3" "provider") eq_refl).
Defined.

End DepMore.

(* ================================================================== *)
(** ** Further properties of the control-plane client *)
(* ================================================================== *)

Module CloudMore.
Import GoStrings GoStringsFacts Cloud CloudSpec.

Section Construction.
Context {ext : External}.

(** The options the package offers, as data: [WithToken] and
    [WithProxyEndpoint]. *)
Inductive option_spec : Type :=
| Token (t : string)
| Proxy (p : option URL).

Definition to_Option (spec : option_spec) : Option :=
  match spec with
  | Token t => WithToken t
  | Proxy p => WithProxyEndpoint p
  end.

(** The token and the proxy endpoint that the last option of its kind sets,
    or the given one when there is none. *)
Fixpoint last_token (specs : list option_spec) (token : string) : string :=
  match specs with
  | [] => token
  | Token t :: rest => last_token rest t
  | Proxy _ :: rest => last_token rest token
  end.

Fixpoint last_proxy (specs : list option_spec) (proxy : option URL) : option URL :=
  match specs with
  | [] => proxy
  | Token _ :: rest => last_proxy rest proxy
  | Proxy p :: rest => last_proxy rest p
  end.

(** The loop of [New] over such options. *)
Lemma apply_options (specs : list option_spec) :
  forall c : Client,
    fold_left (fun c o => o c) (map to_Option specs) c =
    {| Client_ctp := Client_ctp c;
       Client_cfg := Client_cfg c;
       Client_account := Client_account c;
       Client_token := last_token specs (Client_token c);
       Client_proxy := last_proxy specs (Client_proxy c) |}.
Proof.
  induction specs as [|spec rest IH]; intros c; simpl.
  - now destruct c.
  - rewrite IH. now destruct spec.
Qed.

(** X5: a client built by [New] wraps the clients and the account it was
    given, whatever options follow; its token is the one of the last
    [WithToken], or empty without one, and its proxy endpoint is the one of the
    last [WithProxyEndpoint], or nil without one. *)
Theorem New_options (ctp : ctpClient) (cfg : cfgGetter) (account : string)
    (specs : list option_spec) :
  New ctp cfg account (map to_Option specs) =
  {| Client_ctp := ctp;
     Client_cfg := cfg;
     Client_account := account;
     Client_token := last_token specs EmptyString;
     Client_proxy := last_proxy specs None |}.
Proof. unfold New. now rewrite apply_options. Qed.

Section KubeConfig.
Variable Config : Type.
Variable BuildControlPlaneKubeconfig : option URL -> string -> string -> bool -> Config.

(** X6: the credentials of a client built by [New] are built from the proxy
    endpoint and the token its last options set; without a
    [WithProxyEndpoint] the builder is handed a nil endpoint, and without a
    [WithToken] an empty token. *)
Theorem GetKubeConfig_New (ctp : ctpClient) (cfg : cfgGetter) (account : string)
    (specs : list option_spec) (ctx : context) (key : NamespacedName) (st : state) :
  GetKubeConfig Config BuildControlPlaneKubeconfig
    (New ctp cfg account (map to_Option specs)) ctx key st
  = (Return (Some (BuildControlPlaneKubeconfig
                     (last_proxy specs None)
                     (path_Join [account; NamespacedName_Name key])
                     (last_token specs EmptyString)
                     false),
             None),
     st).
Proof. unfold GetKubeConfig, New. now rewrite apply_options. Qed.

End KubeConfig.

End Construction.

Section Runs.
Context {ext : External}.

(** A configuration reference without a name: what makes [convert] panic. *)
Definition unnamed_configuration (ctp : ControlPlaneResponse) : Prop :=
  exists configuration,
    ControlPlane_Configuration (ControlPlaneResponse_ControlPlane ctp) = Some configuration /\
    ControlPlaneConfiguration_Name configuration = None.

Lemma convert_Panic (ctp : ControlPlaneResponse) (st : state) :
  fst (convert (Some ctp) st) = Panic <-> unnamed_configuration ctp.
Proof.
  rewrite convert_cases. unfold unnamed_configuration.
  destruct (ControlPlane_Configuration _) as [configuration|].
  - destruct (ControlPlaneConfiguration_Name configuration) eqn:HN.
    + destruct (age_of _ st). simpl. split; [discriminate|].
      intros (configuration' & [= <-] & H). congruence.
    + simpl. split; [intros _; now exists configuration | reflexivity].
  - destruct (age_of _ st). simpl. split; [discriminate|].
    intros (configuration & H & _). discriminate H.
Qed.


(** [Get], run. *)
Lemma Get_run (c : Client) (ctx : context) (ctp : NamespacedName) (st : state) :
  Get c ctx ctp st =
  if String.eqb (NamespacedName_Namespace ctp) "" then
    let '((resp, err), w) :=
      ctpClient_Get (Client_ctp c) ctx (Client_account c) (NamespacedName_Name ctp) (world st) in
    let st' := called st (CtpGet (Client_account c) (NamespacedName_Name ctp)) w in
    match err with
    | Some e =>
        if IsNotFound e
        then (Return (None, Some (NewNotFound (Some (external e)))), st')
        else (Return (None, Some (external e)), st')
    | None => converted resp st'
    end
  else (Return (None, Some unsupported_namespace), st).
Proof.
  unfold Get. destruct (String.eqb _ ""); simpl; [|reflexivity].
  rewrite bind_invoke.
  destruct (ctpClient_Get _ ctx _ _ (world st)) as [[resp err] w]. cbv zeta.
  destruct err as [e|]; simpl.
  - now destruct (IsNotFound e).
  - unfold converted. rewrite bind_eq. now destruct (convert resp _) as [[r|] st'].
Qed.

(** [Delete], run. *)
Lemma Delete_run (c : Client) (ctx : context) (ctp : NamespacedName) (st : state) :
  Delete c ctx ctp st =
  if String.eqb (NamespacedName_Namespace ctp) "" then
    let '(err, w) :=
      ctpClient_Delete (Client_ctp c) ctx (Client_account c) (NamespacedName_Name ctp)
        (world st) in
    let st' := called st (CtpDelete (Client_account c) (NamespacedName_Name ctp)) w in
    match err with
    | Some e =>
        if IsNotFound e
        then (Return (Some (NewNotFound (Some (external e)))), st')
        else (Return (Some (external e)), st')
    | None => (Return None, st')
    end
  else (Return (Some unsupported_namespace), st).
Proof.
  unfold Delete. destruct (String.eqb _ ""); simpl; [|reflexivity].
  rewrite bind_invoke.
  destruct (ctpClient_Delete _ ctx _ _ (world st)) as [err w]. cbv zeta.
  destruct err as [e|]; simpl; [|reflexivity].
  now destruct (IsNotFound e).
Qed.

(** What [List] makes of the elements of the backend. *)
Definition listed (elements : list ControlPlaneResponse) (st : state)
    : outcome (option (list Response) * option error) * state :=
  match convert_all elements st with
  | (Return rs, st') => (Return (Some rs, None), st')
  | (Panic, st') => (Panic, st')
  end.

(** [List], run. *)
Lemma List_run (c : Client) (ctx : context) (namespace : string) (st : state) :
  List_ c ctx namespace st =
  if String.eqb namespace "" then
    let '((l, err), w) :=
      ctpClient_List (Client_ctp c) ctx (Client_account c) [WithSize 100] (world st) in
    let st' := called st (CtpList (Client_account c) [WithSize 100]) w in
    match err, l with
    | Some e, _ => (Return (None, Some (external e)), st')
    | None, None => (Panic, st')
    | None, Some l => listed (ControlPlaneListResponse_ControlPlanes l) st'
    end
  else (Return (None, Some unsupported_namespace), st).
Proof.
  unfold List_. destruct (String.eqb _ ""); simpl; [|reflexivity].
  rewrite bind_invoke. change maxItems with 100%Z.
  destruct (ctpClient_List _ ctx _ _ (world st)) as [[l err] w]. cbv zeta.
  destruct err as [e|]; [reflexivity|].
  destruct l as [l|]; [|reflexivity].
  unfold option_map. rewrite bind_deref, bind_eq.
  change (for_range ?xs _ ?acc ?s) with (for_range xs append_converted acc s).
  rewrite for_range_convert. unfold listed.
  now destruct (convert_all _ _) as [[rs|] st''].
Qed.

(** [Create], run. *)
Lemma Create_run (c : Client) (ctx : context) (ctp : NamespacedName) (opts : Options)
    (st : state) :
  Create c ctx ctp opts st =
  if String.eqb (NamespacedName_Namespace ctp) "" then
    match Options_ConfigurationName opts with
    | Some configurationName =>
        let '((cfg, err), w) :=
          cfgGetter_Get (Client_cfg c) ctx (Client_account c) configurationName (world st) in
        let st' := called st (CfgGet (Client_account c) configurationName) w in
        match err, cfg with
        | Some e, _ => (Return (None, Some (external e)), st')
        | None, None => (Panic, st')
        | None, Some cfg =>
            submit c ctx (create_parameters ctp opts (Some (ConfigurationResponse_ID cfg))) st'
        end
    | None => submit c ctx (create_parameters ctp opts None) st
    end
  else (Return (None, Some unsupported_namespace), st).
Proof.
  destruct (String.eqb_spec (NamespacedName_Namespace ctp) "") as [HN|HN].
  - rewrite (Create_empty_namespace c ctx ctp opts HN).
    destruct (Options_ConfigurationName opts) as [configurationName|]; [|reflexivity].
    rewrite bind_invoke.
    destruct (cfgGetter_Get _ ctx _ _ (world st)) as [[cfg err] w]. cbv zeta.
    destruct err as [e|]; [reflexivity|].
    destruct cfg as [cfg|]; reflexivity.
  - unfold Create. apply String.eqb_neq in HN. now rewrite HN.
Qed.

End Runs.

Section Behaviour.
Context {ext : External}.

Lemma convert_all_Panic (elements : list ControlPlaneResponse) :
  forall st, fst (convert_all elements st) = Panic <->
             Exists unnamed_configuration elements.
Proof.
  induction elements as [|element rest IH]; intros st; simpl.
  - split; [discriminate | intros H; inversion H].
  - rewrite bind_eq. pose proof (convert_Panic element st) as P.
    destruct (convert (Some element) st) as [[r|] st1]; simpl in P.
    + rewrite bind_eq. specialize (IH st1).
      destruct (convert_all rest st1) as [[rs|] st2]; simpl in *; split.
      * discriminate.
      * intros H. inversion H as [? ? H1|? ? H1]; subst.
        -- apply P in H1. discriminate H1.
        -- apply IH in H1. discriminate H1.
      * intros _. apply Exists_cons_tl. now apply IH.
      * reflexivity.
    + simpl. split; [intros _; apply Exists_cons_hd; now apply P | reflexivity].
Qed.

Lemma listed_calls (elements : list ControlPlaneResponse) (st : state) :
  calls (snd (listed elements st)) = calls st.
Proof.
  unfold listed. pose proof (convert_all_calls elements st) as H.
  now destruct (convert_all elements st) as [[rs|] st'].
Qed.


Lemma submit_calls (c : Client) (ctx : context) (params : ControlPlaneCreateParameters)
    (st : state) :
  calls (snd (submit c ctx params st))
  = (calls st ++ [CtpCreate (Client_account c) params])%list.
Proof.
  rewrite submit_outcome.
  destruct (ctpClient_Create _ ctx _ params (world st)) as [[resp err] w]. cbv zeta.
  destruct err as [e|]; [reflexivity | now rewrite converted_calls].
Qed.




(** The account a call is made for. *)
Definition call_account (call : Call) : string :=
  match call with
  | CtpCreate account _ => account
  | CtpDelete account _ => account
  | CtpGet account _ => account
  | CtpList account _ => account
  | CfgGet account _ => account
  end.

(** From [before] to [after] at most [bound] calls were made, all for the
    account of the client, and no call recorded before was lost. *)
Definition appends (c : Client) (bound : nat) (before after : state) : Prop :=
  exists new,
    calls after = (calls before ++ new)%list /\
    List.length new <= bound /\
    Forall (fun call => call_account call = Client_account c) new.

Lemma appends_none (c : Client) (bound : nat) (st st' : state) :
  calls st' = calls st -> appends c bound st st'.
Proof.
  intros H. exists []. rewrite H, app_nil_r. repeat split; [simpl; lia | constructor].
Qed.

Lemma appends_one (c : Client) (bound : nat) (st st' : state) (call : Call) :
  calls st' = (calls st ++ [call])%list ->
  call_account call = Client_account c ->
  appends c (S bound) st st'.
Proof.
  intros H A. exists [call]. repeat split; [exact H | simpl; lia | now constructor].
Qed.

(** X8: whatever the wrapped clients return, a method only adds to the
    calls made so far; [Get], [List] and [Delete] make at most one call and
    [Create] at most two; and every call is made for the account of the
    client. *)
Theorem calls_for_account (c : Client) (ctx : context) (ctp : NamespacedName)
    (namespace : string) (opts : Options) (st : state) :
  appends c 1 st (snd (Get c ctx ctp st)) /\
  appends c 1 st (snd (List_ c ctx namespace st)) /\
  appends c 2 st (snd (Create c ctx ctp opts st)) /\
  appends c 1 st (snd (Delete c ctx ctp st)).
Proof.
  split; [|split; [|split]].
  - rewrite Get_run. destruct (String.eqb _ ""); [|now apply appends_none].
    destruct (ctpClient_Get _ ctx _ _ (world st)) as [[resp err] w]. cbv zeta.
    apply (appends_one c 0 st _ (CtpGet (Client_account c) (NamespacedName_Name ctp)));
      [|reflexivity].
    destruct err as [e|]; [now destruct (IsNotFound e) | now rewrite converted_calls].
  - rewrite List_run. destruct (String.eqb _ ""); [|now apply appends_none].
    destruct (ctpClient_List _ ctx _ _ (world st)) as [[l err] w]. cbv zeta.
    apply (appends_one c 0 st _ (CtpList (Client_account c) [WithSize 100]));
      [|reflexivity].
    destruct err as [e|]; [reflexivity|].
    destruct l as [l|]; [now rewrite listed_calls | reflexivity].
  - rewrite Create_run. destruct (String.eqb _ ""); [|now apply appends_none].
    destruct (Options_ConfigurationName opts) as [configurationName|].
    + destruct (cfgGetter_Get _ ctx _ _ (world st)) as [[cfg err] w]. cbv zeta.
      destruct err as [e|]; [|destruct cfg as [cfg|]].
      * now apply (appends_one c 1 st _ (CfgGet (Client_account c) configurationName)).
      * exists [CfgGet (Client_account c) configurationName;
                CtpCreate (Client_account c)
                  (create_parameters ctp opts (Some (ConfigurationResponse_ID cfg)))].
        rewrite submit_calls. unfold called; simpl. rewrite <- app_assoc.
        repeat split; [lia | now repeat constructor].
      * now apply (appends_one c 1 st _ (CfgGet (Client_account c) configurationName)).
    + apply (appends_one c 1 st _
               (CtpCreate (Client_account c) (create_parameters ctp opts None)));
        [apply submit_calls | reflexivity].
  - rewrite Delete_run. destruct (String.eqb _ ""); [|now apply appends_none].
    destruct (ctpClient_Delete _ ctx _ _ (world st)) as [err w]. cbv zeta.
    apply (appends_one c 0 st _ (CtpDelete (Client_account c) (NamespacedName_Name ctp)));
      [|reflexivity].
    destruct err as [e|]; [now destruct (IsNotFound e) | reflexivity].
Qed.



(** X10: with an empty namespace, when the backend returns no error
    together with a nil response, or with a response whose configuration
    reference has no name, [Get] panics after its one call to the backend:
    the caller gets neither a response nor an error. *)
Theorem Get_panics_on_nil_response (c : Client) (ctx : context) (ctp : NamespacedName)
    (st : state) (resp : option ControlPlaneResponse) (w : World) :
  NamespacedName_Namespace ctp = "" ->
  ctpClient_Get (Client_ctp c) ctx (Client_account c) (NamespacedName_Name ctp) (world st)
    = ((resp, None), w) ->
  resp = None \/ (exists response, resp = Some response /\ unnamed_configuration response) ->
  Get c ctx ctp st
  = (Panic, called st (CtpGet (Client_account c) (NamespacedName_Name ctp)) w).
Proof.
  intros HN HB H. rewrite Get_run, HN. simpl String.eqb. cbv iota. rewrite HB.
  cbv zeta. unfold converted.
  destruct H as [-> | (response & -> & configuration & HC & HName)]; [reflexivity|].
  now rewrite convert_cases, HC, HName.
Qed.

(** X11: [List] panics exactly when the namespace is empty and the backend
    returns no error together with a nil list or with a list one of whose
    elements has a configuration reference without a name: one such element
    costs the whole listing. *)
Theorem List_panics_iff (c : Client) (ctx : context) (namespace : string) (st : state) :
  fst (List_ c ctx namespace st) = Panic <->
  namespace = "" /\
  exists l w,
    ctpClient_List (Client_ctp c) ctx (Client_account c) [WithSize 100] (world st)
      = ((l, None), w) /\
    (l = None \/
     exists list, l = Some list /\
                  Exists unnamed_configuration (ControlPlaneListResponse_ControlPlanes list)).
Proof.
  rewrite List_run. destruct (String.eqb_spec namespace "") as [HN|HN].
  - destruct (ctpClient_List _ ctx _ _ (world st)) as [[l err] w]. cbv zeta.
    destruct err as [e|].
    + split; [discriminate | intros (_ & l' & w' & H & _); discriminate H].
    + destruct l as [l|].
      * pose proof (convert_all_Panic (ControlPlaneListResponse_ControlPlanes l)
                      (called st (CtpList (Client_account c) [WithSize 100]) w)) as P.
        unfold listed.
        destruct (convert_all _ _) as [[rs|] st']; simpl in *; split.
        -- discriminate.
        -- intros (_ & l' & w' & [= <- <-] & [H | (l'' & [= <-] & H)]);
             [discriminate H | apply P in H; discriminate H].
        -- intros _. split; [exact HN|]. exists (Some l), w. split; [reflexivity|].
           right. exists l. split; [reflexivity | now apply P].
        -- reflexivity.
      * split; [|reflexivity].
        intros _. split; [exact HN|]. exists None, w. split; [reflexivity | now left].
  - split; [discriminate | intros [H _]; contradiction].
Qed.

(** X12: the response [convert] returns carries the identifier of the
    control plane as a string and its name; its age is set exactly when the
    creation time is, and is then what the clock gives for that time, the
    clock being read once; without a creation time the state is left as it
    was. [convert] records no call. *)
Theorem convert_identity_age (ctp : ControlPlaneResponse) (st st' : state) (r : Response) :
  convert (Some ctp) st = (Return r, st') ->
  let cp := ControlPlaneResponse_ControlPlane ctp in
  ID r = UUID_String (ControlPlane_ID cp) /\
  Name r = ControlPlane_Name cp /\
  match ControlPlane_CreatedAt cp with
  | Some createdAt =>
      Age r = Some (fst (time_Since createdAt (world st))) /\
      world st' = snd (time_Since createdAt (world st))
  | None => Age r = None /\ st' = st
  end /\
  calls st' = calls st.
Proof.
  rewrite convert_cases. cbv zeta. unfold age_of, response_of.
  destruct (ControlPlane_Configuration _) as [configuration|].
  - destruct (ControlPlaneConfiguration_Name configuration) as [name|]; [|discriminate].
    destruct (ControlPlane_CreatedAt _) as [createdAt|].
    + destruct (time_Since createdAt (world st)) as [d w]. now intros [= <- <-].
    + now intros [= <- <-].
  - destruct (ControlPlane_CreatedAt _) as [createdAt|].
    + destruct (time_Since createdAt (world st)) as [d w]. now intros [= <- <-].
    + now intros [= <- <-].
Qed.

Lemma toUpper_byte_not_lower (c : ascii) : isLower (toUpper_byte c) = false.
Proof. destruct c as [[] [] [] [] [] [] [] []]; reflexivity. Qed.

Lemma toUpper_byte_ascii (c : ascii) :
  isASCII_byte c = true -> isASCII_byte (toUpper_byte c) = true.
Proof. destruct c as [[] [] [] [] [] [] [] []]; intros H; try discriminate H; reflexivity. Qed.

Lemma toUpper_byte_fixed (c : ascii) : isLower c = false -> toUpper_byte c = c.
Proof. unfold toUpper_byte. now intros ->. Qed.

(** [formatStatus] on a status that starts with an ASCII byte. *)
Lemma formatStatus_ascii (c : ascii) (rest : string) :
  isASCII_byte c = true ->
  formatStatus (String c rest) =
  if String.eqb (String c rest) "ready" then "True" else String (toUpper_byte c) rest.
Proof.
  intros H. rewrite formatStatus_String, (ToUpper_byte c H).
  unfold ConfigurationReady. now destruct (String.eqb (String c rest) "ready").
Qed.

(** X13: on a status that starts with an ASCII byte, [formatStatus] returns
    a text that is not empty and does not start with a lower-case letter, and
    formatting the result again changes nothing. *)
Theorem formatStatus_capitalized (c : ascii) (rest : string) :
  isASCII_byte c = true ->
  (exists c' rest',
     formatStatus (String c rest) = String c' rest' /\
     isLower c' = false /\ isASCII_byte c' = true) /\
  formatStatus (formatStatus (String c rest)) = formatStatus (String c rest).
Proof.
  intros H.
  assert (E : exists c' rest',
            formatStatus (String c rest) = String c' rest' /\
            isLower c' = false /\ isASCII_byte c' = true).
  { rewrite (formatStatus_ascii c rest H).
    destruct (String.eqb (String c rest) "ready").
    - now exists "T"%char, "rue".
    - exists (toUpper_byte c), rest.
      now rewrite toUpper_byte_not_lower, (toUpper_byte_ascii c H). }
  split; [exact E|].
  destruct E as (c' & rest' & -> & L & A).
  rewrite (formatStatus_ascii c' rest' A), (toUpper_byte_fixed c' L).
  destruct (String.eqb_spec (String c' rest') "ready") as [R|_]; [|reflexivity].
  injection R as -> _. discriminate L.
Qed.

End Behaviour.

(** *** The properties at concrete backends *)

#[local] Existing Instance example_external.


(** A backend that breaks its contract: it reports no error, and returns a
    nil response, or a list with a configuration reference without a name. *)
Definition broken_ctp : ctpClient :=
  {| ctpClient_Create := fun _ _ _ now => ((None, None), S now);
     ctpClient_Delete := fun _ _ _ now => (None, S now);
     ctpClient_Get := fun _ _ _ now => ((None, None), S now);
     ctpClient_List := fun _ _ _ now =>
       ((Some {| ControlPlaneListResponse_ControlPlanes :=
                   [example_response "one" "ready" None;
                    example_response "two" "ready"
                      (Some (example_configuration None "ready"))] |},
         None), S now) |}.




(** X10 at a backend that returns a nil response and no error. *)
Lemma Get_panics_on_nil_response_witness :
  Get (New broken_ctp example_cfg "acme" []) tt (key "" "cp") start
  = (Panic, {| world := 11; calls := [CtpGet "acme" "cp"] |}).
Proof.
  apply (Get_panics_on_nil_response (New broken_ctp example_cfg "acme" []) tt
           (key "" "cp") start None 11); [reflexivity | reflexivity | now left].
Defined.

(** X11 at a backend whose list holds a configuration reference without a
    name. *)
Lemma List_panics_iff_witness :
  fst (List_ (New broken_ctp example_cfg "acme" []) tt "" start) = Panic.
Proof.
  apply (proj2 (List_panics_iff (New broken_ctp example_cfg "acme" []) tt "" start)).
  split; [reflexivity|]. eexists _, 11. split; [reflexivity|].
  right. eexists. split; [reflexivity|].
  apply Exists_cons_tl, Exists_cons_hd.
  now exists (example_configuration None "ready").
Defined.

(** X12 at a control plane created at tick 2, converted at tick 10. *)
Lemma convert_identity_age_witness :
  exists r st',
    convert (Some (example_response "cp" "ready" None)) start = (Return r, st') /\
    ID r = "id-cp" /\ Name r = "cp" /\ Age r = Some 8 /\ world st' = 11.
Proof.
  eexists _, _. split; [lazy; reflexivity|].
  destruct (convert_identity_age (example_response "cp" "ready" None) start _ _ eq_refl)
    as (HI & HN & [HA HW] & _).
  split; [exact HI | split; [exact HN | split; [exact HA | exact HW]]].
Defined.

(** X13 at the status "installing". *)
Lemma formatStatus_capitalized_witness :
  formatStatus (formatStatus "installing") = formatStatus "installing".
Proof. exact (proj2 (formatStatus_capitalized "i" "nstalling" eq_refl)). Defined.

End CloudMore.
